(** * E-ink 7-colour conversion: the image transform pipeline

    A shallow embedding of [crop_and_convert.py] and of the curve of
    [plot_blue_reduction_effect.py], with the properties of the pipeline.

    Modelling conventions.
    - Python [float] values (IEEE doubles) are idealised as real numbers
      [R]: the arithmetic is exact, there is no NaN and no infinity.
      [math.pi], [math.exp], [math.sin] and [math.cos] are [PI], [exp],
      [sin] and [cos].
    - Python [int] values and 8-bit samples are integers [Z]; a sample is
      in range when it lies in [0, 255].
    - A frame buffer is an image in RGB mode (the mode conversion of
      [apply_blue_reduction] is then the identity): its size
      [(width, height)] and its rows of pixels, as [numpy.array(image)]
      exposes them.
    - The imaging library (crop, resize, the two enhancers, palette
      quantisation) is not part of the program: its operations are the
      fields of the class [Imaging], and what a theorem needs of them is
      a hypothesis stating the library's contract.
    - Printing, directory creation and saving are the events of a run,
      recorded in order; an uncaught exception ends the run as [Raised]. *)

From Stdlib Require Import Reals Lra Lia ZArith List Bool Psatz.
Import ListNotations.

Local Open Scope R_scope.

(** ** Python numeric primitives *)

Module Py.

(** [a == b], [a != b], [a < b], [a > b] on numbers. *)
Definition eqb (a b : R) : bool := if Req_dec_T a b then true else false.
Definition neqb (a b : R) : bool := negb (eqb a b).
Definition ltb (a b : R) : bool := if Rlt_dec a b then true else false.
Definition gtb (a b : R) : bool := ltb b a.

(** [min(a, b)] keeps [a] unless [b < a]; [max(a, b)] keeps [a] unless
    [b > a]. *)
Definition min (a b : R) : R := if ltb b a then b else a.
Definition max (a b : R) : R := if gtb b a then b else a.

(** [int(x)]: truncation toward zero. *)
Definition int (x : R) : Z := if Rle_dec 0 x then Zfloor x else Zceil x.

(** [numpy.clip(x, lo, hi)]. *)
Definition clip (x lo hi : R) : R := Rmin (Rmax x lo) hi.

(** [x.astype(numpy.uint8)]: truncation, then wrap-around modulo 256. *)
Definition astype_uint8 (x : R) : Z := (int x mod 256)%Z.

End Py.

(** ** Pixels and the blue-reduction curve *)

Definition pixel : Type := (Z * Z * Z)%type.

Definition red_of (p : pixel) : Z := fst (fst p).
Definition green_of (p : pixel) : Z := snd (fst p).
Definition blue_of (p : pixel) : Z := snd p.

(** A sample in [0, 255]; a pixel of three such samples. *)
Definition sample_ok (c : Z) : Prop := (0 <= c <= 255)%Z.
Definition pixel_ok (p : pixel) : Prop :=
  sample_ok (red_of p) /\ sample_ok (green_of p) /\ sample_ok (blue_of p).

(** [clone_norm(x, k_val)] of [plot_blue_reduction_effect.py]: the blue
    multiplier as a function of the blue ratio [x] and the strength. *)
Definition clone_norm (x k_val : R) : R :=
  let x := x * 1.5 in
  ((1/4) * (-4 * PI^2 * exp (3*x) + 6 * PI * sin (2*PI*x)
            - 9 * cos (2*PI*x) + 9 + 4 * PI^2)
     * exp (3 - 3*x) / (PI^2 * (1 - exp 3)) - 1) * k_val + 1.

(** The [result] of the [if strength > 0] block of
    [reduce_blue_in_pixel], as a function of [shrunk_ratio]. *)
Definition curve_result (shrunk_ratio strength : R) : R :=
  let pi := PI in
  let exp_term := exp (3 * shrunk_ratio) in
  let sin_term := sin (2 * pi * shrunk_ratio) in
  let cos_term := cos (2 * pi * shrunk_ratio) in
  let exp_denom := exp 3 in
  ((1/4) * (-4 * pi^2 * exp_term + 6 * pi * sin_term - 9 * cos_term
            + 9 + 4 * pi^2)
     * exp (3 - 3 * shrunk_ratio) / (pi^2 * (1 - exp_denom)) - 1)
  * strength + 1.

(** The Curve Evaluator on a blue ratio: [shrunk_ratio = blue_ratio * 1.5]. *)
Definition curve_evaluator (blue_ratio strength : R) : R :=
  curve_result (blue_ratio * 1.5) strength.

(** [reduction_factor] as [reduce_blue_in_pixel] has it just before the
    final clamp (the body between the fast path and "Apply reduction"). *)
Definition reduction_factor_of
    (r g b : Z) (strength dark_strength luminance_threshold : R) : R :=
  let r_norm := IZR r / 255.0 in
  let g_norm := IZR g / 255.0 in
  let b_norm := IZR b / 255.0 in
  let luminance := 0.299 * r_norm + 0.587 * g_norm + 0.114 * b_norm in
  let total := r_norm + g_norm + b_norm + 0.000001 in
  let blue_ratio := b_norm / total in
  let shrunk_ratio := blue_ratio * 1.5 in
  let reduction_factor := 1.0 in
  let reduction_factor :=
    if Py.gtb dark_strength 0 && Py.ltb luminance luminance_threshold then
      let darkness_factor := 1 - (luminance / luminance_threshold) in
      let additional_reduction :=
        1 - (dark_strength * darkness_factor * 0.1) in
      reduction_factor * additional_reduction
    else reduction_factor in
  let reduction_factor :=
    if Py.gtb strength 0 then
      reduction_factor * curve_result shrunk_ratio strength
    else reduction_factor in
  reduction_factor.

Definition reduce_blue_in_pixel
    (r g b : Z) (strength dark_strength luminance_threshold : R) : pixel :=
  if Py.eqb strength 0 && Py.eqb dark_strength 0 then (r, g, b)
  else
    let b_norm := IZR b / 255.0 in
    let reduction_factor :=
      reduction_factor_of r g b strength dark_strength luminance_threshold in
    let new_b := Py.max 0 (Py.min 255 (b_norm * reduction_factor * 255)) in
    (r, g, Py.int new_b).

(** The default [luminance_threshold=0.35]. *)
Definition default_luminance_threshold : R := 0.35.

(** ** Frame buffers *)

(** An RGB image: [size] is [(width, height)], [rows] the pixel rows. *)
Record frame : Type := mkImage {
  img_size : Z * Z;
  img_rows : list (list pixel)
}.

Definition img_width (im : frame) : Z := fst (img_size im).
Definition img_height (im : frame) : Z := snd (img_size im).

(** The rows agree with the size: [height] rows of [width] pixels. *)
Definition well_shaped (im : frame) : Prop :=
  Z.of_nat (length (img_rows im)) = img_height im /\
  Forall (fun row => Z.of_nat (length row) = img_width im) (img_rows im).

(** Every sample of the image is in [0, 255]. *)
Definition image_ok (im : frame) : Prop :=
  Forall (Forall pixel_ok) (img_rows im).

(** [numpy.array(image)], the [(rows, columns)] of its [shape], and
    [Image.fromarray]: the image size is read off the array. *)
Definition np_array (im : frame) : list (list pixel) := img_rows im.

Definition np_shape (a : list (list pixel)) : Z * Z :=
  (Z.of_nat (length a), Z.of_nat (length (hd [] a))).

Definition Image_fromarray (a : list (list pixel)) : frame :=
  mkImage (snd (np_shape a), fst (np_shape a)) a.

(** The image of the given size whose pixels all equal [p]. *)
Definition uniform_image (p : pixel) (sz : Z * Z) : frame :=
  mkImage sz (repeat (repeat p (Z.to_nat (fst sz))) (Z.to_nat (snd sz))).

(** ** Frame Colorizer *)

Definition apply_blue_reduction
    (image : frame) (strength dark_strength : R) : frame :=
  if Py.eqb strength 0 && Py.eqb dark_strength 0 then image
  else
    let img_array := np_array image in
    let img_array :=
      map (map (fun px : pixel =>
                  let '(r, g, b) := px in
                  reduce_blue_in_pixel r g b strength dark_strength
                    default_luminance_threshold)) img_array in
    Image_fromarray img_array.

(** ** The imaging library *)

Inductive dither : Type := NONE | FLOYDSTEINBERG.

(** The operations of the imaging library the program calls:
    [image.crop(box)], [image.resize(size, Image.LANCZOS)],
    [ImageEnhance.Color(image).enhance(factor)],
    [ImageEnhance.Contrast(image).enhance(factor)] and
    [image.quantize(palette=palette_img, dither=d).convert('RGB')]. *)
Class Imaging : Type := {
  Image_crop : frame -> Z * Z * Z * Z -> frame;
  Image_resize : frame -> Z * Z -> frame;
  Color_enhance : frame -> R -> frame;
  Contrast_enhance : frame -> R -> frame;
  quantize_rgb : frame -> frame -> dither -> frame
}.

(** ** Adjustment Stage *)

(** One step of [apply_adjustments] each, in the order of the source. *)
Definition adjust_saturation `{Imaging} (image : frame) (saturation : Z)
  : frame :=
  if negb (saturation =? 100)%Z then
    Color_enhance image (IZR saturation / 100.0)
  else image.

Definition black_level_sample (black_level : Z) (c : Z) : Z :=
  Py.astype_uint8 (Py.clip (IZR c + IZR black_level * 255 / 100) 0 255).

Definition adjust_black_level (image : frame) (black_level : Z) : frame :=
  if (black_level >? 0)%Z then
    let img_array := np_array image in
    let img_array :=
      map (map (fun px : pixel =>
                  let '(r, g, b) := px in
                  (black_level_sample black_level r,
                   black_level_sample black_level g,
                   black_level_sample black_level b))) img_array in
    Image_fromarray img_array
  else image.

Definition adjust_contrast `{Imaging} (image : frame) (contrast : R)
  : frame :=
  if Py.neqb contrast 0 then
    if Py.gtb contrast 0 then Contrast_enhance image (1 + contrast * 0.2)
    else Contrast_enhance image (1 + contrast * 0.1)
  else image.

Definition shadow_pixel (shadows : R) (px : pixel) : pixel :=
  let '(r, g, b) := px in
  let luminance := 0.299 * IZR r + 0.587 * IZR g + 0.114 * IZR b in
  let shadow_mask := (255 - luminance) / 255 in
  let adjustment := shadow_mask * shadows * 5 in
  let lift (c : Z) := Py.astype_uint8 (Py.clip (IZR c + adjustment) 0 255) in
  (lift r, lift g, lift b).

Definition adjust_shadows (image : frame) (shadows : R) : frame :=
  if Py.gtb shadows 0 then
    let img_array := np_array image in
    Image_fromarray (map (map (shadow_pixel shadows)) img_array)
  else image.

Definition apply_adjustments `{Imaging}
    (image : frame) (saturation black_level : Z) (contrast shadows : R)
  : frame :=
  let image := adjust_saturation image saturation in
  let image := adjust_black_level image black_level in
  let image := adjust_contrast image contrast in
  let image := adjust_shadows image shadows in
  image.

(** ** Geometry Stage *)

(** [crop_to_ratio(image, ratio_str)]; [ratio_parts] are the two numbers
    the fields of [ratio_str] parse to.  [None] is a [ZeroDivisionError]. *)
Definition crop_to_ratio `{Imaging} (image : frame) (ratio_parts : R * R)
  : option frame :=
  let '(width, height) := img_size image in
  if Py.eqb (snd ratio_parts) 0 then None else
  let target_ratio := fst ratio_parts / snd ratio_parts in
  if (height =? 0)%Z then None else
  let current_ratio := IZR width / IZR height in
  if Py.gtb current_ratio target_ratio then
    let new_width := Py.int (IZR height * target_ratio) in
    let left := ((width - new_width) / 2)%Z in
    Some (Image_crop image (left, 0, left + new_width, height)%Z)
  else
    if Py.eqb target_ratio 0 then None else
    let new_height := Py.int (IZR width / target_ratio) in
    let top := ((height - new_height) / 2)%Z in
    Some (Image_crop image (0, top, width, top + new_height)%Z).

(** ** Quantizer *)

(** The [--dither-method] choices ['FloydSteinberg'] and ['None']. *)
Inductive dither_method : Type := FloydSteinberg | NoDither.

Definition simple_dither `{Imaging}
    (image palette_img : frame) (method : dither_method) : frame :=
  match method with
  | NoDither => quantize_rgb image palette_img NONE
  | FloydSteinberg => quantize_rgb image palette_img FLOYDSTEINBERG
  end.

(** ** Pipeline Orchestrator *)

(** The parsed command line (the unused [--diffusion] left out). *)
Record args : Type := mkArgs {
  blue_reduction : R;
  dark_blue_reduction : R;
  saturation : Z;
  black_level : Z;
  contrast : R;
  shadows : R;
  dither_method_arg : dither_method
}.

(** The defaults of the argument parser. *)
Definition default_args : args := mkArgs 0 0 100 0 1 0 FloydSteinberg.

(** What the run finds on disk: the decoded input image (if the file
    exists) and the palette image [palette_7color.gif] (if it exists). *)
Record files : Type := mkFiles {
  fs_image : option frame;
  fs_palette : option frame
}.

Inductive orientation : Type := landscape | portrait.

Inductive message : Type :=
| MsgImageNotFound
| MsgProcessing
| MsgSettings (a : args)
| MsgOriginalDimensions (sz : Z * Z)
| MsgDetected (o : orientation) (crop_ratio : R * R) (final : Z * Z)
| MsgPaletteNotFound
| MsgDone.

(** The observable effects of a run, in order. *)
Inductive event : Type :=
| Print (m : message)
| Makedirs
| Save (im : frame).

Inductive outcome : Type :=
| Exited (code : Z)
| Raised
| Returned.

(** The orientation test of [main]: crop ratio, final dimensions and
    orientation name for an image of the given width and height. *)
Definition detect_orientation (width height : Z)
  : (R * R) * (Z * Z) * orientation :=
  if (width >? height)%Z then ((5, 3), (800, 480)%Z, landscape)
  else ((3, 5), (480, 800)%Z, portrait).

Definition main `{Imaging} (a : args) (fs : files) : list event * outcome :=
  match fs_image fs with
  | None => ([Print MsgImageNotFound], Exited 1)
  | Some image =>
    let log := [Makedirs; Print MsgProcessing; Print (MsgSettings a);
                Print (MsgOriginalDimensions (img_size image))] in
    let '(width, height) := img_size image in
    let '(crop_ratio, final_dimensions, orientation) :=
      detect_orientation width height in
    let log :=
      log ++ [Print (MsgDetected orientation crop_ratio final_dimensions)] in
    match crop_to_ratio image crop_ratio with
    | None => (log, Raised)
    | Some image =>
      let image := Image_resize image final_dimensions in
      let image :=
        apply_blue_reduction image (blue_reduction a)
          (dark_blue_reduction a) in
      let image :=
        apply_adjustments image (saturation a) (black_level a) (contrast a)
          (shadows a) in
      let '(image, log) :=
        match fs_palette fs with
        | Some palette_img =>
          (simple_dither image palette_img (dither_method_arg a), log)
        | None => (image, log ++ [Print MsgPaletteNotFound])
        end in
      (log ++ [Save image; Print MsgDone], Returned)
    end
  end.

(** The image a run saved, if it saved one. *)
Fixpoint saved_image (log : list event) : option frame :=
  match log with
  | [] => None
  | Save im :: _ => Some im
  | _ :: rest => saved_image rest
  end.

(** ** Contracts of the imaging library

    What the theorems below assume of the library operations.  Each is a
    property of the library as documented; [Pillow] further down is a
    concrete model that satisfies all of them. *)

(** The library's blending arithmetic on one sample,
    [in1 + alpha * (in2 - in1)] clipped to [0, 255] and truncated. *)
Definition blend8 (in1 in2 : Z) (alpha : R) : Z :=
  let temp := IZR in1 + alpha * (IZR in2 - IZR in1) in
  if Rle_dec temp 0 then 0%Z
  else if Rle_dec 255 temp then 255%Z
  else Py.int temp.

Definition blend_pixel (d px : pixel) (alpha : R) : pixel :=
  let '(dr, dg, db) := d in
  let '(r, g, b) := px in
  (blend8 dr r alpha, blend8 dg g alpha, blend8 db b alpha).

(** The part of the image inside the box [(left, upper, right, lower)]. *)
Definition box_region (im : frame) (box : Z * Z * Z * Z) : frame :=
  let '(l, t, r, b) := box in
  mkImage (r - l, b - t)%Z
    (map (fun row => firstn (Z.to_nat (r - l)) (skipn (Z.to_nat l) row))
       (firstn (Z.to_nat (b - t)) (skipn (Z.to_nat t) (img_rows im)))).

(** [crop] returns an image of the size of its box. *)
Definition crop_size_contract `{Imaging} : Prop :=
  forall im l t r b, (l <= r)%Z -> (t <= b)%Z ->
    img_size (Image_crop im (l, t, r, b)) = (r - l, b - t)%Z.

(** [crop] with a box inside the image returns that region. *)
Definition crop_region_contract `{Imaging} : Prop :=
  forall im l t r b,
    (0 <= l <= r)%Z -> (r <= img_width im)%Z ->
    (0 <= t <= b)%Z -> (b <= img_height im)%Z ->
    Image_crop im (l, t, r, b) = box_region im (l, t, r, b).

(** [resize] returns a well-shaped image of the requested size. *)
Definition resize_size_contract `{Imaging} : Prop :=
  forall im sz, (0 < fst sz)%Z -> (0 < snd sz)%Z ->
    img_size (Image_resize im sz) = sz /\ well_shaped (Image_resize im sz).

(** [resize] of a single-colour image is the single-colour image of the
    requested size. *)
Definition resize_uniform_contract `{Imaging} : Prop :=
  forall p sz sz',
    (0 < fst sz)%Z -> (0 < snd sz)%Z -> (0 < fst sz')%Z -> (0 < snd sz')%Z ->
    Image_resize (uniform_image p sz) sz' = uniform_image p sz'.

(** The enhancers keep the size and the shape of the image. *)
Definition enhance_shape_contract `{Imaging} : Prop :=
  forall im f, well_shaped im ->
    (img_size (Color_enhance im f) = img_size im /\
     well_shaped (Color_enhance im f)) /\
    (img_size (Contrast_enhance im f) = img_size im /\
     well_shaped (Contrast_enhance im f)).

(** The enhancers return 8-bit samples. *)
Definition enhance_range_contract `{Imaging} : Prop :=
  forall im f, image_ok (Color_enhance im f) /\
               image_ok (Contrast_enhance im f).

(** The contrast enhancer blends every pixel with one gray level of the
    image (its rounded mean luminance) by the given factor. *)
Definition contrast_blend_contract `{Imaging} : Prop :=
  forall im f, image_ok im ->
    exists m, (0 <= m <= 255)%Z /\
      Contrast_enhance im f =
      mkImage (img_size im)
        (map (map (fun px => blend_pixel (m, m, m) px f)) (img_rows im)).

(** Quantisation keeps the size of the image. *)
Definition quantize_size_contract `{Imaging} : Prop :=
  forall im pal d, img_size (quantize_rgb im pal d) = img_size im.

(** ** A concrete model of the library *)

Module Pillow.

Definition crop (im : frame) (box : Z * Z * Z * Z) : frame :=
  box_region im box.

(** Nearest-neighbour resampling. *)
Definition resize (im : frame) (sz : Z * Z) : frame :=
  let '(w, h) := img_size im in
  let '(w', h') := sz in
  let d := hd (0, 0, 0)%Z (hd [] (img_rows im)) in
  mkImage sz
    (map (fun y =>
            map (fun x =>
                   nth (Z.to_nat (Z.of_nat x * w / w'))
                     (nth (Z.to_nat (Z.of_nat y * h / h')) (img_rows im) [])
                     d)
              (seq 0 (Z.to_nat w')))
       (seq 0 (Z.to_nat h'))).

(** Conversion to gray (ITU-R 601-2 luma, 16-bit fixed point). *)
Definition luma (px : pixel) : Z :=
  let '(r, g, b) := px in
  ((r * 19595 + g * 38470 + b * 7471 + 32768) / 65536)%Z.

Definition color_enhance (im : frame) (factor : R) : frame :=
  mkImage (img_size im)
    (map (map (fun px => let l := luma px in blend_pixel (l, l, l) px factor))
       (img_rows im)).

(** [int(mean + 0.5)] of the gray image. *)
Definition mean_luma (im : frame) : Z :=
  let ls := map luma (concat (img_rows im)) in
  let n := Z.of_nat (length ls) in
  let s := fold_right Z.add 0%Z ls in
  ((2 * s + n) / (2 * n))%Z.

Definition contrast_enhance (im : frame) (factor : R) : frame :=
  let m := mean_luma im in
  mkImage (img_size im)
    (map (map (fun px => blend_pixel (m, m, m) px factor)) (img_rows im)).

Definition dist2 (p q : pixel) : Z :=
  let '(r1, g1, b1) := p in
  let '(r2, g2, b2) := q in
  ((r1 - r2) * (r1 - r2) + (g1 - g2) * (g1 - g2) + (b1 - b2) * (b1 - b2))%Z.

Definition nearest (pal : list pixel) (px : pixel) : pixel :=
  fold_right (fun c best => if (dist2 c px <? dist2 best px)%Z then c else best)
    (hd px pal) pal.

(** Nearest-colour mapping (error diffusion is not modelled). *)
Definition quantize (im pal : frame) (d : dither) : frame :=
  mkImage (img_size im)
    (map (map (nearest (concat (img_rows pal)))) (img_rows im)).

Definition library : Imaging :=
  Build_Imaging crop resize color_enhance contrast_enhance quantize.

End Pillow.

(** ** Sample inputs *)

(** A small landscape image, the files of a run on it without a palette,
    and the files of the pure-red 1600x960 scenario. *)
Definition sample_image : frame := uniform_image (200, 120, 40)%Z (5, 2)%Z.

Definition sample_files : files := mkFiles (Some sample_image) None.

Definition pure_red_files : files :=
  mkFiles (Some (uniform_image (255, 0, 0)%Z (1600, 960)%Z)) None.

(** ** The curve plotter *)

(** [normalized_x_expr] of [plot_blue_reduction_effect.py]: the curve
    before it is scaled by the strength. *)
Definition normalized_x_expr (x : R) : R :=
  (1/4) * (-4 * PI^2 * exp (3*x) + 6 * PI * sin (2*PI*x)
           - 9 * cos (2*PI*x) + 9 + 4 * PI^2)
  * exp (3 - 3*x) / (PI^2 * (1 - exp 3)).

(** The bracket of the curve without its first term, damped by
    [exp (-3 x)]; the curve is an affine image of it. *)
Definition curve_tail (x : R) : R :=
  (6 * PI * sin (2 * PI * x) - 9 * cos (2 * PI * x) + 9 + 4 * PI ^ 2)
  * exp (- 3 * x).

(** [numpy.linspace(start, stop, num)]. *)
Definition linspace (start stop : R) (num : nat) : list R :=
  map (fun i => start + INR i * ((stop - start) / INR (num - 1)))
    (seq 0 num).

(** What [plot_curves] does for each strength, and at the end: the
    "Skipping" message, a plotted line (its abscissas, ordinates and the
    strength of its label), the saved figure. *)
Inductive plot_event : Type :=
| PlotSkip (strength : R)
| PlotLine (xs ys : list R) (strength : R)
| PlotSave.

Definition plot_curves (strengths : list R) : list plot_event :=
  map (fun strength =>
         if Rle_dec strength 0 then PlotSkip strength
         else
           let blue_ratio := linspace 0 3 100 in
           let k := strength in
           PlotLine blue_ratio (map (fun x => clone_norm x k) blue_ratio)
             strength)
    strengths
  ++ [PlotSave].

(** The strengths of the plotted lines, in order. *)
Fixpoint plotted_strengths (evs : list plot_event) : list R :=
  match evs with
  | [] => []
  | PlotLine _ _ k :: rest => k :: plotted_strengths rest
  | _ :: rest => plotted_strengths rest
  end.

(** The strengths reported as skipped, in order. *)
Fixpoint skipped_strengths (evs : list plot_event) : list R :=
  match evs with
  | [] => []
  | PlotSkip k :: rest => k :: skipped_strengths rest
  | _ :: rest => skipped_strengths rest
  end.

(** ** Integer forms *)

(** The black-level step on one sample, in integer arithmetic. *)
Definition black_level_int (black_level c : Z) : Z :=
  Z.min 255 (c + black_level * 255 / 100).

(** The command line with every correction switched off. *)
Definition neutral_args (m : dither_method) : args :=
  mkArgs 0 0 100 0 0 0 m.

(** * Properties *)

(** ** Facts about the numeric primitives *)

Module PyFacts.

Lemma eqb_true a b : Py.eqb a b = true <-> a = b.
Proof. unfold Py.eqb; destruct (Req_dec_T a b); split; congruence. Qed.

Lemma eqb_false a b : Py.eqb a b = false <-> a <> b.
Proof. unfold Py.eqb; destruct (Req_dec_T a b); split; congruence. Qed.

Lemma eqb_refl a : Py.eqb a a = true.
Proof. now apply eqb_true. Qed.

Lemma neqb_refl a : Py.neqb a a = false.
Proof. unfold Py.neqb; now rewrite eqb_refl. Qed.

Lemma ltb_true a b : Py.ltb a b = true <-> a < b.
Proof. unfold Py.ltb; destruct (Rlt_dec a b); split; congruence. Qed.

Lemma ltb_false a b : Py.ltb a b = false <-> b <= a.
Proof.
  unfold Py.ltb; destruct (Rlt_dec a b); split; try congruence; lra.
Qed.

Lemma gtb_true a b : Py.gtb a b = true <-> b < a.
Proof. apply ltb_true. Qed.

Lemma gtb_false a b : Py.gtb a b = false <-> a <= b.
Proof. apply ltb_false. Qed.

Lemma gtb_irrefl a : Py.gtb a a = false.
Proof. apply gtb_false; lra. Qed.

Lemma min_Rmin a b : Py.min a b = Rmin a b.
Proof.
  unfold Py.min, Py.ltb, Rmin.
  destruct (Rlt_dec b a), (Rle_dec a b); lra.
Qed.

Lemma max_Rmax a b : Py.max a b = Rmax a b.
Proof.
  unfold Py.max, Py.gtb, Py.ltb, Rmax.
  destruct (Rlt_dec a b), (Rle_dec a b); lra.
Qed.

Lemma int_nonneg x : 0 <= x -> Py.int x = Zfloor x.
Proof. intros H; unfold Py.int; destruct (Rle_dec 0 x); tauto. Qed.

Lemma int_IZR z : Py.int (IZR z) = z.
Proof.
  unfold Py.int; destruct (Rle_dec 0 (IZR z)).
  - apply ZfloorZ.
  - apply Zceil_eq; lra.
Qed.

Lemma int_range x lo hi :
  IZR lo <= x <= IZR hi -> (0 <= lo)%Z -> (lo <= Py.int x <= hi)%Z.
Proof.
  intros [Hlo Hhi] H0.
  assert (0 <= x) by (apply IZR_le in H0; lra).
  rewrite int_nonneg by assumption.
  pose proof (Zfloor_bound x) as [Hb1 Hb2].
  split.
  - now apply Zfloor_lub.
  - apply le_IZR; lra.
Qed.

Lemma clip_range x lo hi : lo <= hi -> lo <= Py.clip x lo hi <= hi.
Proof.
  intros H; unfold Py.clip, Rmin, Rmax.
  destruct (Rle_dec x lo); destruct (Rle_dec _ hi); lra.
Qed.

Lemma clamp_range x : 0 <= Py.max 0 (Py.min 255 x) <= 255.
Proof.
  rewrite max_Rmax, min_Rmin; unfold Rmin, Rmax.
  destruct (Rle_dec 255 x); destruct (Rle_dec 0 _); lra.
Qed.

(** A value already in [0, 255] is converted without wrap-around. *)
Lemma astype_uint8_exact x :
  0 <= x <= 255 -> Py.astype_uint8 x = Zfloor x.
Proof.
  intros Hx; unfold Py.astype_uint8.
  assert (Hr : (0 <= Py.int x <= 255)%Z)
    by (apply int_range; simpl; lra || lia).
  rewrite Z.mod_small by lia.
  apply int_nonneg; lra.
Qed.

Lemma astype_uint8_clip x : sample_ok (Py.astype_uint8 (Py.clip x 0 255)).
Proof.
  pose proof (clip_range x 0 255 ltac:(lra)) as Hc.
  rewrite astype_uint8_exact by assumption.
  rewrite <- int_nonneg by lra.
  apply int_range; simpl; lra || lia.
Qed.

End PyFacts.

(** ** The curve *)

(** The two transcriptions of the curve agree. *)
Lemma clone_norm_curve_evaluator x k :
  clone_norm x k = curve_evaluator x k.
Proof. reflexivity. Qed.

(** At [shrunk_ratio = 0] the bracket of the closed form vanishes, and
    the multiplier is [1 - strength]. *)
Lemma curve_result_at_zero strength : curve_result 0 strength = 1 - strength.
Proof.
  unfold curve_result.
  replace (3 * 0) with 0 by ring.
  replace (2 * PI * 0) with 0 by ring.
  rewrite exp_0, sin_0, cos_0.
  replace (-4 * PI ^ 2 * 1 + 6 * PI * 0 - 9 * 1 + 9 + 4 * PI ^ 2) with 0
    by ring.
  unfold Rdiv; ring.
Qed.

Lemma exp_3_gt_1 : 1 < exp 3.
Proof. pose proof (exp_ineq1 3 ltac:(lra)); lra. Qed.

Lemma curve_denominator_neg : PI ^ 2 * (1 - exp 3) < 0.
Proof.
  pose proof exp_3_gt_1. pose proof PI_RGT_0.
  assert (0 < PI ^ 2) by (simpl; nra).
  nra.
Qed.

(** At [shrunk_ratio = 1] (blue ratio 2/3) the multiplier is 1, for
    every strength: the curve is normalised there. *)
Lemma curve_result_at_one strength : curve_result 1 strength = 1.
Proof.
  unfold curve_result.
  replace (3 * 1) with 3 by ring.
  replace (2 * PI * 1) with (2 * PI) by ring.
  replace (3 - 3) with 0 by ring.
  rewrite exp_0, sin_2PI, cos_2PI.
  pose proof curve_denominator_neg as HD.
  replace (1 / 4 * (-4 * PI ^ 2 * exp 3 + 6 * PI * 0 - 9 * 1 + 9 + 4 * PI ^ 2)
           * 1)
    with (PI ^ 2 * (1 - exp 3)) by field.
  unfold Rdiv. rewrite Rinv_r by lra. ring.
Qed.

Lemma PI_gt_3 : 3 < PI.
Proof. pose proof PI2_3_2; lra. Qed.

(** For [shrunk_ratio >= 4/3] the normalised curve is at least 1, so the
    multiplier does not reduce blue. *)
Lemma curve_result_boost x strength :
  4 / 3 <= x -> 0 <= strength -> 1 <= curve_result x strength.
Proof.
  intros Hx Hs. unfold curve_result.
  set (s := sin (2 * PI * x)). set (c := cos (2 * PI * x)).
  set (E := exp (3 - 3 * x)).
  assert (Hprod : exp (3 * x) * E = exp 3).
  { unfold E. rewrite <- exp_plus. f_equal. ring. }
  pose proof (SIN_bound (2 * PI * x)) as Hsin. fold s in Hsin.
  pose proof (COS_bound (2 * PI * x)) as Hcos. fold c in Hcos.
  pose proof PI_gt_3 as Hpi.
  assert (HE0 : 0 < E) by apply exp_pos.
  assert (HE : E <= 1 / 2).
  { assert (Hle : E * exp 1 <= 1).
    { unfold E. rewrite <- exp_plus.
      assert (Hm : exp (3 - 3 * x + 1) <= exp 0);
        [|rewrite exp_0 in Hm; exact Hm].
      destruct (Req_dec_T (3 - 3 * x + 1) 0) as [->|Hne];
        [lra | left; apply exp_increasing; lra]. }
    assert (2 <= exp 1) by (pose proof (exp_ineq1_le 1); lra).
    nra. }
  pose proof curve_denominator_neg as HD.
  set (D := PI ^ 2 * (1 - exp 3)) in *.
  set (A := -4 * PI ^ 2 * exp (3 * x) + 6 * PI * s - 9 * c + 9 + 4 * PI ^ 2).
  assert (HX : 1 / 4 * A * E <= D).
  { replace (1 / 4 * A * E)
      with (- PI ^ 2 * (exp (3 * x) * E)
            + 1 / 4 * (6 * PI * s - 9 * c + 9 + 4 * PI ^ 2) * E)
      by (unfold A; field).
    rewrite Hprod. unfold D.
    assert (HB : 6 * PI * s - 9 * c + 9 + 4 * PI ^ 2
                 <= 6 * PI + 18 + 4 * PI ^ 2) by nra.
    assert (HBE : (6 * PI * s - 9 * c + 9 + 4 * PI ^ 2) * E
                  <= (6 * PI + 18 + 4 * PI ^ 2) * (1 / 2)).
    { apply Rle_trans with ((6 * PI + 18 + 4 * PI ^ 2) * E).
      - apply Rmult_le_compat_r; lra.
      - apply Rmult_le_compat_l; [nra | lra]. }
    nra. }
  assert (HN : 1 <= 1 / 4 * A * E / D).
  { unfold Rdiv at 2.
    assert (HiD : / D < 0) by (apply Rinv_lt_0_compat; exact HD).
    assert (HDi : D * / D = 1) by (apply Rinv_r; lra).
    nra. }
  nra.
Qed.

(** C1 (as the code has it).  At blue ratio 0 the Curve Evaluator returns
    [1 - strength], for every strength; it is 1 only for strength 0. *)
Theorem curve_evaluator_zero_blue :
  forall strength : R,
    curve_evaluator 0 strength = 1 - strength /\
    clone_norm 0 strength = 1 - strength /\
    (curve_evaluator 0 strength = 1 <-> strength = 0).
Proof.
  intros strength.
  assert (H : curve_evaluator 0 strength = 1 - strength).
  { unfold curve_evaluator. replace (0 * 1.5) with 0 by lra.
    apply curve_result_at_zero. }
  change (clone_norm 0 strength) with (curve_evaluator 0 strength).
  rewrite H.
  repeat split; intros; lra.
Qed.

(** C1 as stated fails: with strength 1 the multiplier at blue ratio 0
    is 0, not 1. *)
Lemma curve_evaluator_zero_blue_not_one :
  0 <= 1 /\ curve_evaluator 0 1 <> 1.
Proof.
  split; [lra|].
  unfold curve_evaluator. replace (0 * 1.5) with 0 by lra.
  rewrite curve_result_at_zero. lra.
Qed.

(** ** Pixel Corrector *)

Lemma reduce_blue_fast_path r g b lt :
  reduce_blue_in_pixel r g b 0 0 lt = (r, g, b).
Proof.
  unfold reduce_blue_in_pixel. now rewrite PyFacts.eqb_refl.
Qed.

(** Outside the fast path the pixel is rebuilt around the clamped blue. *)
Lemma reduce_blue_slow_path r g b s d lt :
  ~ (s = 0 /\ d = 0) ->
  reduce_blue_in_pixel r g b s d lt =
  (r, g,
   Py.int (Py.max 0 (Py.min 255
     (IZR b / 255.0 * reduction_factor_of r g b s d lt * 255)))).
Proof.
  intros Hne. unfold reduce_blue_in_pixel.
  destruct (Py.eqb s 0) eqn:Es; [|reflexivity].
  destruct (Py.eqb d 0) eqn:Ed; [|reflexivity].
  apply PyFacts.eqb_true in Es, Ed. tauto.
Qed.

(** The pure-blue pixel at strength 10: the curve multiplier is at
    least 1, so the product reaches the upper clamp. *)
Lemma pure_blue_factor lt :
  1 <= reduction_factor_of 0 0 255 10 0 lt.
Proof.
  unfold reduction_factor_of.
  rewrite PyFacts.gtb_irrefl. simpl andb. cbv iota.
  replace (Py.gtb 10 0) with true
    by (symmetry; apply PyFacts.gtb_true; lra).
  replace (1.0 * curve_result
             (IZR 255 / 255.0 /
              (IZR 0 / 255.0 + IZR 0 / 255.0 + IZR 255 / 255.0 + 0.000001)
              * 1.5) 10)
    with (curve_result (1 / 1.000001 * 1.5) 10).
  - apply curve_result_boost; lra.
  - replace 1.0 with 1 by lra. rewrite Rmult_1_l. f_equal. lra.
Qed.

(** A product at or above 255 is clamped to 255. *)
Lemma clamp_saturates v :
  255 <= v -> Py.int (Py.max 0 (Py.min 255 v)) = 255%Z.
Proof.
  intros Hv.
  replace (Py.min 255 v) with 255
    by (unfold Py.min; rewrite (proj2 (PyFacts.ltb_false v 255)); lra).
  replace (Py.max 0 255) with 255
    by (unfold Py.max; rewrite (proj2 (PyFacts.gtb_true 255 0)); lra).
  apply PyFacts.int_IZR.
Qed.

(** C2 (as the code has it).  The pure-blue pixel with strength 10 and
    dark strength 0 comes out unchanged: blue stays 255 (the multiplier at
    blue ratio 1 is above 1 and the product is clamped), red and green
    stay 0. *)
Theorem pure_blue_pixel_unchanged :
  forall luminance_threshold : R,
    reduce_blue_in_pixel 0 0 255 10 0 luminance_threshold = (0, 0, 255)%Z.
Proof.
  intros lt.
  rewrite reduce_blue_slow_path by lra.
  pose proof (pure_blue_factor lt) as Hf.
  rewrite clamp_saturates; [reflexivity|].
  replace (IZR 255 / 255.0) with 1 by lra.
  lra.
Qed.

(** C2 as stated fails: the output blue is not strictly below 255. *)
Lemma pure_blue_not_reduced :
  ~ ((blue_of (reduce_blue_in_pixel 0 0 255 10 0
                 default_luminance_threshold) < 255)%Z /\
     red_of (reduce_blue_in_pixel 0 0 255 10 0
               default_luminance_threshold) = 0%Z /\
     green_of (reduce_blue_in_pixel 0 0 255 10 0
                 default_luminance_threshold) = 0%Z).
Proof.
  rewrite reduce_blue_slow_path by lra.
  pose proof (pure_blue_factor default_luminance_threshold) as Hf.
  rewrite clamp_saturates.
  - unfold blue_of; cbn [snd]. lia.
  - replace (IZR 255 / 255.0) with 1 by lra. lra.
Qed.

Lemma apply_blue_reduction_fast_path image :
  apply_blue_reduction image 0 0 = image.
Proof. unfold apply_blue_reduction. now rewrite PyFacts.eqb_refl. Qed.

(** C4.  With strength 0 and dark strength 0 the Pixel Corrector returns
    the pixel it was given, and the Frame Colorizer the image it was
    given, without any arithmetic on the samples. *)
Theorem zero_strength_identity :
  (forall (r g b : Z) (luminance_threshold : R),
      reduce_blue_in_pixel r g b 0 0 luminance_threshold = (r, g, b)) /\
  (forall image : frame, apply_blue_reduction image 0 0 = image).
Proof.
  split.
  - intros; apply reduce_blue_fast_path.
  - intros; apply apply_blue_reduction_fast_path.
Qed.

(** C8.  For every pixel with samples in [0, 255] and all parameters,
    the Pixel Corrector returns the red and the green it was given; only
    the blue sample can differ. *)
Theorem red_green_untouched :
  forall (r g b : Z) (strength dark_strength luminance_threshold : R),
    pixel_ok (r, g, b) ->
    red_of (reduce_blue_in_pixel r g b strength dark_strength
              luminance_threshold) = r /\
    green_of (reduce_blue_in_pixel r g b strength dark_strength
                luminance_threshold) = g.
Proof.
  intros r g b strength dark_strength luminance_threshold _.
  unfold reduce_blue_in_pixel.
  destruct (Py.eqb strength 0 && Py.eqb dark_strength 0); split; reflexivity.
Qed.

Lemma red_green_untouched_witness :
  pixel_ok (12, 34, 56)%Z /\
  red_of (reduce_blue_in_pixel 12 34 56 10 1 0.35) = 12%Z /\
  green_of (reduce_blue_in_pixel 12 34 56 10 1 0.35) = 34%Z.
Proof.
  assert (Hok : pixel_ok (12, 34, 56)%Z).
  { unfold pixel_ok, sample_ok, red_of, green_of, blue_of; cbn [fst snd].
    lia. }
  split; [exact Hok | exact (red_green_untouched 12 34 56 10 1 0.35 Hok)].
Defined.

(** C10.  When the blue sample is recomputed (strength or dark strength
    not 0), it is the floor of the clamped product
    [b_norm * reduction_factor * 255]: the conversion truncates, it does
    not round to nearest. *)
Theorem blue_is_floor_of_clamp :
  forall (r g b : Z) (strength dark_strength luminance_threshold : R),
    pixel_ok (r, g, b) ->
    ~ (strength = 0 /\ dark_strength = 0) ->
    blue_of (reduce_blue_in_pixel r g b strength dark_strength
               luminance_threshold)
    = Zfloor (Rmax 0 (Rmin 255
        (IZR b / 255 *
         reduction_factor_of r g b strength dark_strength luminance_threshold
         * 255))).
Proof.
  intros r g b s d lt _ Hne.
  rewrite reduce_blue_slow_path by assumption. unfold blue_of; simpl snd.
  replace 255.0 with 255 by lra.
  rewrite PyFacts.int_nonneg by apply PyFacts.clamp_range.
  now rewrite PyFacts.max_Rmax, PyFacts.min_Rmin.
Qed.

Lemma blue_is_floor_of_clamp_witness :
  (pixel_ok (0, 0, 255)%Z /\ ~ (0 = 0 /\ 1 = 0)) /\
  blue_of (reduce_blue_in_pixel 0 0 255 0 1 0.35)
  = Zfloor (Rmax 0 (Rmin 255
      (IZR 255 / 255 * reduction_factor_of 0 0 255 0 1 0.35 * 255))).
Proof.
  assert (Hok : pixel_ok (0, 0, 255)%Z).
  { unfold pixel_ok, sample_ok, red_of, green_of, blue_of; cbn [fst snd].
    lia. }
  assert (Hne : ~ (0 = 0 /\ 1 = 0)) by lra.
  split; [split; assumption|].
  exact (blue_is_floor_of_clamp 0 0 255 0 1 0.35 Hok Hne).
Defined.

(** The truncation is observable: a dark pure-blue pixel with dark
    strength 1 has the product 237.8..., and comes out as 237. *)
Lemma dark_blue_truncated :
  reduce_blue_in_pixel 0 0 255 0 1 0.35 = (0, 0, 237)%Z.
Proof.
  rewrite reduce_blue_slow_path by lra.
  assert (Hf : reduction_factor_of 0 0 255 0 1 0.35
               = 1 - (1 - 0.114 / 0.35) * 0.1).
  { unfold reduction_factor_of.
    rewrite PyFacts.gtb_irrefl.
    replace (Py.gtb 1 0) with true
      by (symmetry; apply PyFacts.gtb_true; lra).
    replace (Py.ltb _ 0.35) with true
      by (symmetry; apply PyFacts.ltb_true; lra).
    simpl andb. cbv iota. lra. }
  rewrite Hf.
  set (v := IZR 255 / 255.0 * (1 - (1 - 0.114 / 0.35) * 0.1) * 255).
  assert (Hv : 237 <= v < 238) by (unfold v; lra).
  replace (Py.min 255 v) with v
    by (unfold Py.min; rewrite (proj2 (PyFacts.ltb_true v 255)); lra).
  replace (Py.max 0 v) with v
    by (unfold Py.max; rewrite (proj2 (PyFacts.gtb_true v 0)); lra).
  rewrite PyFacts.int_nonneg by lra.
  f_equal. apply Zfloor_eq. simpl. lra.
Qed.

(** The Pixel Corrector keeps samples in range. *)
Lemma reduce_blue_in_range r g b s d lt :
  pixel_ok (r, g, b) -> pixel_ok (reduce_blue_in_pixel r g b s d lt).
Proof.
  intros (Hr & Hg & Hb). unfold reduce_blue_in_pixel.
  destruct (Py.eqb s 0 && Py.eqb d 0); (split; [|split]); try assumption.
  unfold blue_of, sample_ok; simpl snd.
  apply PyFacts.int_range; [apply PyFacts.clamp_range | lia].
Qed.

(** ** Frame buffers through numpy *)

Lemma image_ok_map (f : pixel -> pixel) (a : list (list pixel)) :
  (forall px, pixel_ok px -> pixel_ok (f px)) ->
  Forall (Forall pixel_ok) a ->
  image_ok (Image_fromarray (map (map f) a)).
Proof.
  intros Hf Ha. unfold image_ok, Image_fromarray; simpl.
  induction Ha as [|row a' Hrow _ IH]; simpl; constructor; auto.
  induction Hrow; simpl; constructor; auto.
Qed.

(** Mapping the pixels of a well-shaped image with at least one row and
    building the image back keeps its size and shape. *)
Lemma fromarray_map_shape (f : pixel -> pixel) (im : frame) :
  well_shaped im -> (0 < img_height im)%Z ->
  img_size (Image_fromarray (map (map f) (np_array im))) = img_size im /\
  well_shaped (Image_fromarray (map (map f) (np_array im))).
Proof.
  unfold well_shaped, np_array, img_height, img_width.
  destruct im as [[w h] a]; cbn [img_size img_rows fst snd].
  intros [Hh Hw] Hpos.
  assert (Hsz : np_shape (map (map f) a) = (h, w)).
  { unfold np_shape. rewrite length_map, Hh. f_equal.
    destruct a as [|row a']; simpl in *; [lia|].
    rewrite length_map. now inversion Hw. }
  unfold Image_fromarray. cbn [img_size img_rows]. rewrite Hsz.
  cbn [fst snd]. repeat split.
  - now rewrite length_map.
  - apply Forall_map. eapply Forall_impl; [|exact Hw].
    intros row Hrow; simpl. now rewrite length_map.
Qed.

Lemma apply_blue_reduction_shape im s d :
  well_shaped im -> (0 < img_height im)%Z ->
  img_size (apply_blue_reduction im s d) = img_size im /\
  well_shaped (apply_blue_reduction im s d).
Proof.
  intros Hws Hpos. unfold apply_blue_reduction.
  destruct (Py.eqb s 0 && Py.eqb d 0); [auto|].
  now apply fromarray_map_shape.
Qed.

Lemma adjust_black_level_shape im bl :
  well_shaped im -> (0 < img_height im)%Z ->
  img_size (adjust_black_level im bl) = img_size im /\
  well_shaped (adjust_black_level im bl).
Proof.
  intros Hws Hpos. unfold adjust_black_level.
  destruct (bl >? 0)%Z; [|auto].
  now apply fromarray_map_shape.
Qed.

Lemma adjust_shadows_shape im sh :
  well_shaped im -> (0 < img_height im)%Z ->
  img_size (adjust_shadows im sh) = img_size im /\
  well_shaped (adjust_shadows im sh).
Proof.
  intros Hws Hpos. unfold adjust_shadows.
  destruct (Py.gtb sh 0); [|auto].
  now apply fromarray_map_shape.
Qed.

Lemma black_level_pixel_ok bl (px : pixel) :
  pixel_ok (let '(r, g, b) := px in
            (black_level_sample bl r, black_level_sample bl g,
             black_level_sample bl b)).
Proof.
  destruct px as [[r g] b]. unfold black_level_sample.
  repeat split; apply PyFacts.astype_uint8_clip.
Qed.

Lemma shadow_pixel_ok sh (px : pixel) : pixel_ok (shadow_pixel sh px).
Proof.
  destruct px as [[r g] b]. unfold shadow_pixel.
  repeat split; apply PyFacts.astype_uint8_clip.
Qed.

(** ** Adjustment Stage *)

Section Adjustments.

Context `{Imaging}.

Lemma adjust_saturation_skip im : adjust_saturation im 100 = im.
Proof. reflexivity. Qed.

Lemma adjust_black_level_skip im bl :
  (bl <= 0)%Z -> adjust_black_level im bl = im.
Proof.
  intros Hbl. unfold adjust_black_level.
  destruct (bl >? 0)%Z eqn:E; [lia | reflexivity].
Qed.

Lemma adjust_contrast_skip im : adjust_contrast im 0 = im.
Proof. unfold adjust_contrast. now rewrite PyFacts.neqb_refl. Qed.

Lemma adjust_shadows_skip im sh : sh <= 0 -> adjust_shadows im sh = im.
Proof.
  intros Hsh. unfold adjust_shadows.
  now rewrite (proj2 (PyFacts.gtb_false sh 0)).
Qed.

(** C5.  With saturation 100, black level 0, contrast 0 and shadows 0 the
    Adjustment Stage returns the image it was given; and each step on its
    own returns its input at its identity value, whatever the other three
    parameters are. *)
Theorem adjustments_identity :
  forall image : frame,
    apply_adjustments image 100 0 0 0 = image /\
    (forall bl c sh,
        apply_adjustments image 100 bl c sh
        = adjust_shadows (adjust_contrast (adjust_black_level image bl) c) sh)
    /\
    (forall sat c sh,
        apply_adjustments image sat 0 c sh
        = adjust_shadows (adjust_contrast (adjust_saturation image sat) c) sh)
    /\
    (forall sat bl sh,
        apply_adjustments image sat bl 0 sh
        = adjust_shadows (adjust_black_level (adjust_saturation image sat) bl)
            sh)
    /\
    (forall sat bl c,
        apply_adjustments image sat bl c 0
        = adjust_contrast (adjust_black_level (adjust_saturation image sat) bl)
            c).
Proof.
  intros image. unfold apply_adjustments.
  split; [|split; [|split; [|split]]]; intros.
  - rewrite adjust_shadows_skip by lra.
    rewrite adjust_contrast_skip.
    now rewrite adjust_black_level_skip by lia.
  - reflexivity.
  - now rewrite adjust_black_level_skip by lia.
  - now rewrite adjust_contrast_skip.
  - now rewrite adjust_shadows_skip by lra.
Qed.

Lemma adjust_saturation_ok im sat :
  enhance_range_contract -> image_ok im -> image_ok (adjust_saturation im sat).
Proof.
  intros Hc Him. unfold adjust_saturation.
  destruct (negb (sat =? 100)%Z); [apply Hc | exact Him].
Qed.

Lemma adjust_black_level_ok im bl :
  image_ok im -> image_ok (adjust_black_level im bl).
Proof.
  intros Him. unfold adjust_black_level.
  destruct (bl >? 0)%Z; [|exact Him].
  apply image_ok_map; [|exact Him].
  intros px _. apply black_level_pixel_ok.
Qed.

Lemma adjust_contrast_ok im c :
  enhance_range_contract -> image_ok im -> image_ok (adjust_contrast im c).
Proof.
  intros Hc Him. unfold adjust_contrast.
  destruct (Py.neqb c 0); [|exact Him].
  destruct (Py.gtb c 0); apply Hc.
Qed.

Lemma adjust_shadows_ok im sh :
  image_ok im -> image_ok (adjust_shadows im sh).
Proof.
  intros Him. unfold adjust_shadows.
  destruct (Py.gtb sh 0); [|exact Him].
  apply image_ok_map; [|exact Him].
  intros px _. apply shadow_pixel_ok.
Qed.

Lemma apply_blue_reduction_ok im s d :
  image_ok im -> image_ok (apply_blue_reduction im s d).
Proof.
  intros Him. unfold apply_blue_reduction.
  destruct (Py.eqb s 0 && Py.eqb d 0); [exact Him|].
  apply image_ok_map; [|exact Him].
  intros [[r g] b]. apply reduce_blue_in_range.
Qed.

(** C3.  Samples stay in [0, 255]: through the Pixel Corrector, through
    the Frame Colorizer, and through each step of the Adjustment Stage and
    their composition, for all parameters (the two enhancer steps by the
    library's contract). *)
Theorem channels_stay_in_range :
  enhance_range_contract ->
  (forall r g b strength dark_strength luminance_threshold,
      pixel_ok (r, g, b) ->
      pixel_ok (reduce_blue_in_pixel r g b strength dark_strength
                  luminance_threshold)) /\
  (forall image strength dark_strength,
      image_ok image ->
      image_ok (apply_blue_reduction image strength dark_strength)) /\
  (forall image saturation,
      image_ok image -> image_ok (adjust_saturation image saturation)) /\
  (forall image black_level,
      image_ok image -> image_ok (adjust_black_level image black_level)) /\
  (forall image contrast,
      image_ok image -> image_ok (adjust_contrast image contrast)) /\
  (forall image shadows,
      image_ok image -> image_ok (adjust_shadows image shadows)) /\
  (forall image saturation black_level contrast shadows,
      image_ok image ->
      image_ok (apply_adjustments image saturation black_level contrast
                  shadows)).
Proof.
  intros Hc. split; [|split; [|split; [|split; [|split; [|split]]]]]; intros.
  - now apply reduce_blue_in_range.
  - now apply apply_blue_reduction_ok.
  - now apply adjust_saturation_ok.
  - now apply adjust_black_level_ok.
  - now apply adjust_contrast_ok.
  - now apply adjust_shadows_ok.
  - unfold apply_adjustments.
    apply adjust_shadows_ok, adjust_contrast_ok; [exact Hc|].
    apply adjust_black_level_ok. now apply adjust_saturation_ok.
Qed.

End Adjustments.

(** ** Geometry Stage and the orchestrator *)

Section Pipeline.

Context `{Imaging}.

(** [crop_to_ratio] on an image of positive size and a positive ratio:
    it returns, and the cropped size is the floor of the ideal one. *)
Lemma crop_to_ratio_size im w h n d :
  crop_size_contract ->
  img_size im = (w, h) -> (0 < w)%Z -> (0 < h)%Z -> 0 < n -> 0 < d ->
  exists c, crop_to_ratio im (n, d) = Some c /\
    ((n / d < IZR w / IZR h /\
      img_size c = (Zfloor (IZR h * (n / d)), h)) \/
     (IZR w / IZR h <= n / d /\
      img_size c = (w, Zfloor (IZR w / (n / d))))).
Proof.
  intros Hcrop Hsz Hw Hh Hn Hd.
  assert (Ht : 0 < n / d) by (apply Rdiv_lt_0_compat; assumption).
  assert (HhR : 0 < IZR h) by (apply IZR_lt; assumption).
  assert (HwR : 0 < IZR w) by (apply IZR_lt; assumption).
  unfold crop_to_ratio. rewrite Hsz. cbn [fst snd].
  rewrite (proj2 (PyFacts.eqb_false d 0)) by lra.
  destruct (h =? 0)%Z eqn:Eh; [lia|].
  destruct (Py.gtb (IZR w / IZR h) (n / d)) eqn:Eg.
  - apply PyFacts.gtb_true in Eg.
    assert (H0 : 0 <= IZR h * (n / d)) by nra.
    rewrite PyFacts.int_nonneg by assumption.
    set (nw := Zfloor (IZR h * (n / d))).
    assert (Hnw : (0 <= nw)%Z) by (apply Zfloor_lub; assumption).
    eexists; split; [reflexivity|]. left; split; [assumption|].
    rewrite Hcrop by lia. f_equal; lia.
  - apply PyFacts.gtb_false in Eg.
    rewrite (proj2 (PyFacts.eqb_false (n / d) 0)) by lra.
    assert (H0 : 0 <= IZR w / (n / d))
      by (left; apply Rdiv_lt_0_compat; assumption).
    rewrite PyFacts.int_nonneg by assumption.
    set (nh := Zfloor (IZR w / (n / d))).
    assert (Hnh : (0 <= nh)%Z) by (apply Zfloor_lub; assumption).
    eexists; split; [reflexivity|]. right; split; [assumption|].
    rewrite Hcrop by lia. f_equal; lia.
Qed.

(** The cropped side is within one pixel of the side the target ratio
    asks for, and the crop lies inside the image. *)
Lemma crop_to_ratio_close im w h n d :
  crop_size_contract ->
  img_size im = (w, h) -> (0 < w)%Z -> (0 < h)%Z -> 0 < n -> 0 < d ->
  exists c, crop_to_ratio im (n, d) = Some c /\
    ((img_height c = h /\ (0 <= img_width c <= w)%Z /\
      IZR h * (n / d) - 1 < IZR (img_width c) <= IZR h * (n / d)) \/
     (img_width c = w /\ (0 <= img_height c <= h)%Z /\
      IZR w / (n / d) - 1 < IZR (img_height c) <= IZR w / (n / d))).
Proof.
  intros Hcrop Hsz Hw Hh Hn Hd.
  assert (Ht : 0 < n / d) by (apply Rdiv_lt_0_compat; assumption).
  assert (HhR : 0 < IZR h) by (apply IZR_lt; assumption).
  assert (HwR : 0 < IZR w) by (apply IZR_lt; assumption).
  destruct (crop_to_ratio_size im w h n d Hcrop Hsz Hw Hh Hn Hd)
    as (c & Hc & [[Hr Hs] | [Hr Hs]]);
    exists c; (split; [exact Hc|]); unfold img_height, img_width;
    rewrite Hs; cbn [fst snd]; [left | right].
  - set (x := IZR h * (n / d)) in *.
    pose proof (Zfloor_bound x) as [Hb1 Hb2].
    assert (Hxw : x < IZR w).
    { unfold x. apply (Rmult_lt_compat_r (IZR h)) in Hr; [|assumption].
      replace (IZR w / IZR h * IZR h) with (IZR w) in Hr by (field; lra).
      lra. }
    repeat split; try lra.
    + apply Zfloor_lub. unfold x. nra.
    + apply le_IZR. lra.
  - set (x := IZR w / (n / d)) in *.
    pose proof (Zfloor_bound x) as [Hb1 Hb2].
    assert (H0 : 0 < x) by (apply Rdiv_lt_0_compat; assumption).
    assert (Hxh : x <= IZR h).
    { unfold x. apply (Rmult_le_compat_r (IZR h)) in Hr; [|lra].
      replace (IZR w / IZR h * IZR h) with (IZR w) in Hr by (field; lra).
      apply (Rmult_le_reg_r (n / d)); [assumption|].
      replace (IZR w / (n / d) * (n / d)) with (IZR w) by (field; lra).
      lra. }
    repeat split; try lra.
    + apply Zfloor_lub. simpl; lra.
    + apply le_IZR. lra.
Qed.

(** The stages after the resize keep the size of a well-shaped image
    with at least one row. *)
Lemma apply_adjustments_shape im sat bl c sh :
  enhance_shape_contract ->
  well_shaped im -> (0 < img_height im)%Z ->
  img_size (apply_adjustments im sat bl c sh) = img_size im /\
  well_shaped (apply_adjustments im sat bl c sh).
Proof.
  intros Henh Hws Hpos. unfold apply_adjustments.
  assert (H1 : img_size (adjust_saturation im sat) = img_size im /\
               well_shaped (adjust_saturation im sat)).
  { unfold adjust_saturation. destruct (negb (sat =? 100)%Z); [|auto].
    now apply Henh. }
  destruct H1 as [S1 W1].
  destruct (adjust_black_level_shape (adjust_saturation im sat) bl W1)
    as [S2 W2]; [unfold img_height in *; now rewrite S1|].
  set (im2 := adjust_black_level (adjust_saturation im sat) bl) in *.
  assert (H3 : img_size (adjust_contrast im2 c) = img_size im2 /\
               well_shaped (adjust_contrast im2 c)).
  { unfold adjust_contrast. destruct (Py.neqb c 0); [|auto].
    destruct (Py.gtb c 0); now apply Henh. }
  destruct H3 as [S3 W3].
  destruct (adjust_shadows_shape (adjust_contrast im2 c) sh W3) as [S4 W4];
    [unfold img_height in *; rewrite S3, S2, S1; assumption|].
  split; [congruence | assumption].
Qed.

Lemma simple_dither_size im pal m :
  quantize_size_contract -> img_size (simple_dither im pal m) = img_size im.
Proof. intros Hq. unfold simple_dither. destruct m; apply Hq. Qed.

(** A run on an input of positive size returns, and saves an image of
    the target size. *)
Lemma main_saves_target_size a fs im w h :
  crop_size_contract -> resize_size_contract ->
  enhance_shape_contract -> quantize_size_contract ->
  fs_image fs = Some im -> img_size im = (w, h) ->
  (0 < w)%Z -> (0 < h)%Z ->
  exists log out,
    main a fs = (log, Returned) /\ saved_image log = Some out /\
    img_size out = if (w >? h)%Z then (800, 480)%Z else (480, 800)%Z.
Proof.
  intros Hcrop Hres Henh Hq Him Hsz Hw Hh.
  unfold main. rewrite Him, Hsz. unfold detect_orientation.
  set (fd := if (w >? h)%Z then (800, 480)%Z else (480, 800)%Z).
  assert (Hfd : (0 < fst fd)%Z /\ (0 < snd fd)%Z)
    by (unfold fd; destruct (w >? h)%Z; simpl; lia).
  assert (Hshape : forall c,
             img_size
               (apply_adjustments
                  (apply_blue_reduction (Image_resize c fd)
                     (blue_reduction a) (dark_blue_reduction a))
                  (saturation a) (black_level a) (contrast a) (shadows a))
             = fd).
  { intros c.
    destruct (Hres c fd (proj1 Hfd) (proj2 Hfd)) as [S0 W0].
    assert (P0 : (0 < img_height (Image_resize c fd))%Z)
      by (unfold img_height; rewrite S0; tauto).
    destruct (apply_blue_reduction_shape (Image_resize c fd)
                (blue_reduction a) (dark_blue_reduction a) W0 P0) as [S1 W1].
    assert (P1 : (0 < img_height
                       (apply_blue_reduction (Image_resize c fd)
                          (blue_reduction a) (dark_blue_reduction a)))%Z)
      by (unfold img_height in *; rewrite S1; assumption).
    destruct (apply_adjustments_shape _ (saturation a) (black_level a)
                (contrast a) (shadows a) Henh W1 P1) as [S2 _].
    congruence. }
  unfold fd in *. clear fd Hfd.
  destruct (w >? h)%Z.
  - destruct (crop_to_ratio_size im w h 5 3 Hcrop Hsz Hw Hh) as (c & Hc & _);
      try lra.
    rewrite Hc. destruct (fs_palette fs) as [pal|];
      cbn [saved_image app]; do 2 eexists;
      (split; [reflexivity|]); (split; [reflexivity|]);
      rewrite ?simple_dither_size by assumption; apply Hshape.
  - destruct (crop_to_ratio_size im w h 3 5 Hcrop Hsz Hw Hh) as (c & Hc & _);
      try lra.
    rewrite Hc. destruct (fs_palette fs) as [pal|];
      cbn [saved_image app]; do 2 eexists;
      (split; [reflexivity|]); (split; [reflexivity|]);
      rewrite ?simple_dither_size by assumption; apply Hshape.
Qed.

(** C6.  For an input of positive size: the crop returns an image whose
    cropped side is within one pixel of what the target ratio (5:3 for
    width > height, 3:5 otherwise) asks for, the other side being kept;
    and the run saves an image of exactly 800x480 for width > height and
    480x800 otherwise. *)
Theorem geometry_dimensions :
  crop_size_contract -> resize_size_contract ->
  enhance_shape_contract -> quantize_size_contract ->
  forall (a : args) (fs : files) (im : frame) (w h : Z),
    fs_image fs = Some im -> img_size im = (w, h) ->
    (0 < w)%Z -> (0 < h)%Z ->
    let crop_ratio := fst (fst (detect_orientation w h)) in
    let target_ratio := fst crop_ratio / snd crop_ratio in
    (exists c, crop_to_ratio im crop_ratio = Some c /\
       ((img_height c = h /\ (0 <= img_width c <= w)%Z /\
         IZR h * target_ratio - 1 < IZR (img_width c) <= IZR h * target_ratio)
        \/
        (img_width c = w /\ (0 <= img_height c <= h)%Z /\
         IZR w / target_ratio - 1 < IZR (img_height c)
                                 <= IZR w / target_ratio))) /\
    (exists log out,
       main a fs = (log, Returned) /\ saved_image log = Some out /\
       img_size out = if (w >? h)%Z then (800, 480)%Z else (480, 800)%Z).
Proof.
  intros Hcrop Hres Henh Hq a fs im w h Him Hsz Hw Hh. split.
  - unfold detect_orientation. destruct (w >? h)%Z; cbn [fst snd].
    + apply (crop_to_ratio_close im w h 5 3); assumption || lra.
    + apply (crop_to_ratio_close im w h 3 5); assumption || lra.
  - now apply (main_saves_target_size a fs im w h).
Qed.

End Pipeline.

(** ** Runs without a palette *)

Lemma uniform_image_ok p sz : pixel_ok p -> image_ok (uniform_image p sz).
Proof.
  intros Hp. unfold image_ok, uniform_image; cbn [img_rows].
  apply Forall_forall. intros row Hrow.
  apply repeat_spec in Hrow. subst row.
  apply Forall_forall. intros q Hq.
  apply repeat_spec in Hq. now subst q.
Qed.

(** The box covering a single-colour image is that image. *)
Lemma box_region_uniform_full p w h top :
  (0 <= w)%Z -> (0 <= h)%Z -> top = 0%Z ->
  box_region (uniform_image p (w, h)) (0, top, w, top + h)%Z
  = uniform_image p (w, h).
Proof.
  intros Hw Hh ->. unfold box_region, uniform_image. cbn [img_rows fst snd].
  replace (w - 0)%Z with w by lia.
  replace (0 + h - 0)%Z with h by lia.
  change (Z.to_nat 0) with 0%nat. cbn [skipn]. f_equal.
  rewrite <- (repeat_length (repeat p (Z.to_nat w)) (Z.to_nat h)) at 1.
  rewrite firstn_all, map_repeat. f_equal.
  rewrite <- (repeat_length p (Z.to_nat w)) at 1.
  apply firstn_all.
Qed.

(** Blending pure red away from any gray level by a factor above 1
    saturates back to pure red. *)
Lemma blend_red_saturates m f :
  (0 <= m <= 255)%Z -> 1 <= f ->
  blend_pixel (m, m, m) (255, 0, 0)%Z f = (255, 0, 0)%Z.
Proof.
  intros [Hm0 Hm1] Hf.
  apply IZR_le in Hm0, Hm1.
  unfold blend_pixel.
  assert (Hhi : blend8 m 255 f = 255%Z).
  { unfold blend8.
    destruct (Rle_dec (IZR m + f * (IZR 255 - IZR m)) 0); [nra|].
    destruct (Rle_dec 255 (IZR m + f * (IZR 255 - IZR m))); [reflexivity|].
    nra. }
  assert (Hlo : blend8 m 0 f = 0%Z).
  { unfold blend8.
    destruct (Rle_dec (IZR m + f * (IZR 0 - IZR m)) 0); [reflexivity|].
    nra. }
  now rewrite Hhi, Hlo.
Qed.

Section Scenarios.

Context `{Imaging}.

Lemma crop_to_ratio_returns im n d :
  img_height im <> 0%Z -> n <> 0 -> d <> 0 ->
  exists c, crop_to_ratio im (n, d) = Some c.
Proof.
  intros Hh Hn Hd. unfold crop_to_ratio, img_height in *.
  destruct (img_size im) as [w h]. cbn [fst snd] in *.
  rewrite (proj2 (PyFacts.eqb_false d 0)) by assumption.
  destruct (h =? 0)%Z eqn:Eh; [lia|].
  destruct (Py.gtb (IZR w / IZR h) (n / d)); [eauto|].
  assert (n / d <> 0).
  { unfold Rdiv. apply Rmult_integral_contrapositive_currified;
      [assumption | now apply Rinv_neq_0_compat]. }
  rewrite (proj2 (PyFacts.eqb_false (n / d) 0)) by assumption. eauto.
Qed.

(** C7.  When the palette file is absent (and the input image is there,
    with a non-zero height), the run prints the warning, does not
    quantise, saves the adjusted image as it is and returns normally. *)
Theorem missing_palette_skips_quantizer :
  forall (a : args) (fs : files) (im : frame),
    fs_image fs = Some im -> fs_palette fs = None ->
    img_height im <> 0%Z ->
    let '(crop_ratio, final_dimensions, _) :=
      detect_orientation (img_width im) (img_height im) in
    exists cropped log,
      crop_to_ratio im crop_ratio = Some cropped /\
      let adjusted :=
        apply_adjustments
          (apply_blue_reduction (Image_resize cropped final_dimensions)
             (blue_reduction a) (dark_blue_reduction a))
          (saturation a) (black_level a) (contrast a) (shadows a) in
      main a fs
      = (log ++ [Print MsgPaletteNotFound; Save adjusted; Print MsgDone],
         Returned) /\
      saved_image (fst (main a fs)) = Some adjusted /\
      saved_image log = None.
Proof.
  intros a fs im Him Hpal Hh.
  unfold main. rewrite Him, Hpal.
  unfold img_width, img_height in *.
  destruct (img_size im) as [w h] eqn:Hsz. cbn [fst snd] in *.
  unfold detect_orientation.
  destruct (w >? h)%Z.
  - destruct (crop_to_ratio_returns im 5 3) as (c & Hc);
      [unfold img_height; now rewrite Hsz | lra | lra |].
    rewrite Hc. exists c.
    exists [Makedirs; Print MsgProcessing; Print (MsgSettings a);
            Print (MsgOriginalDimensions (w, h));
            Print (MsgDetected landscape (5, 3) (800, 480)%Z)].
    split; [reflexivity|]. cbn zeta. cbn [fst saved_image app].
    repeat split; reflexivity.
  - destruct (crop_to_ratio_returns im 3 5) as (c & Hc);
      [unfold img_height; now rewrite Hsz | lra | lra |].
    rewrite Hc. exists c.
    exists [Makedirs; Print MsgProcessing; Print (MsgSettings a);
            Print (MsgOriginalDimensions (w, h));
            Print (MsgDetected portrait (3, 5) (480, 800)%Z)].
    split; [reflexivity|]. cbn zeta. cbn [fst saved_image app].
    repeat split; reflexivity.
Qed.

(** The pure-red 1600x960 input is cropped to itself. *)
Lemma crop_red_1600_960 p :
  crop_region_contract ->
  crop_to_ratio (uniform_image p (1600, 960)%Z) (5, 3)
  = Some (uniform_image p (1600, 960)%Z).
Proof.
  intros Hcrop. unfold crop_to_ratio.
  change (img_size (uniform_image p (1600, 960)%Z)) with (1600, 960)%Z.
  cbn [fst snd].
  rewrite (proj2 (PyFacts.eqb_false 3 0)) by lra.
  change (960 =? 0)%Z with false. cbv iota.
  rewrite (proj2 (PyFacts.gtb_false (IZR 1600 / IZR 960) (5 / 3))) by lra.
  rewrite (proj2 (PyFacts.eqb_false (5 / 3) 0)) by lra.
  replace (IZR 1600 / (5 / 3)) with (IZR 960) by lra.
  rewrite PyFacts.int_IZR.
  change ((960 - 960) / 2)%Z with 0%Z.
  rewrite Hcrop.
  - apply f_equal. apply box_region_uniform_full; lia.
  - lia.
  - unfold img_width; simpl; lia.
  - lia.
  - unfold img_height; simpl; lia.
Qed.

(** The default adjustments (contrast 1) leave a pure-red image as it
    is: the contrast stretch by 1.2 saturates every sample. *)
Lemma default_adjustments_red sz :
  contrast_blend_contract ->
  apply_adjustments (uniform_image (255, 0, 0)%Z sz) 100 0 1 0
  = uniform_image (255, 0, 0)%Z sz.
Proof.
  intros Hblend. unfold apply_adjustments.
  rewrite adjust_shadows_skip by lra.
  rewrite adjust_saturation_skip.
  rewrite adjust_black_level_skip by lia.
  unfold adjust_contrast.
  replace (Py.neqb 1 0) with true
    by (symmetry; unfold Py.neqb;
        rewrite (proj2 (PyFacts.eqb_false 1 0)); [reflexivity | lra]).
  rewrite (proj2 (PyFacts.gtb_true 1 0)) by lra.
  destruct (Hblend (uniform_image (255, 0, 0)%Z sz) (1 + 1 * 0.2))
    as (m & Hm & ->).
  { apply uniform_image_ok.
    unfold pixel_ok, sample_ok, red_of, green_of, blue_of; cbn [fst snd].
    lia. }
  unfold uniform_image. cbn [img_size img_rows]. f_equal.
  rewrite !map_repeat. do 2 f_equal.
  apply blend_red_saturates; [assumption | lra].
Qed.

(** C9.  The 1600x960 pure-red input, run with the default arguments
    (strength 0, saturation 100, black level 0, contrast 1, shadows 0) and
    no palette file: the run returns and the saved image is the 800x480
    image whose every pixel is (255, 0, 0). *)
Theorem pure_red_end_to_end :
  crop_region_contract -> resize_uniform_contract ->
  contrast_blend_contract ->
  forall fs : files,
    fs_image fs = Some (uniform_image (255, 0, 0)%Z (1600, 960)%Z) ->
    fs_palette fs = None ->
    exists log out,
      main default_args fs = (log, Returned) /\
      saved_image log = Some out /\
      img_size out = (800, 480)%Z /\
      img_rows out = repeat (repeat (255, 0, 0)%Z 800) 480.
Proof.
  intros Hcrop Hres Hblend fs Him Hpal.
  unfold main. rewrite Him, Hpal.
  change (img_size (uniform_image (255, 0, 0)%Z (1600, 960)%Z))
    with (1600, 960)%Z.
  unfold detect_orientation. change (1600 >? 960)%Z with true. cbv iota.
  rewrite (crop_red_1600_960 _ Hcrop).
  rewrite Hres by (simpl; lia).
  unfold default_args.
  cbn [blue_reduction dark_blue_reduction saturation black_level contrast
       shadows].
  rewrite apply_blue_reduction_fast_path.
  rewrite (default_adjustments_red _ Hblend).
  cbn [saved_image app]. do 2 eexists.
  split; [reflexivity|]. split; [reflexivity|].
  split; reflexivity.
Qed.

End Scenarios.

(** ** The concrete model satisfies the contracts *)

Lemma blend8_ok in1 in2 alpha : sample_ok (blend8 in1 in2 alpha).
Proof.
  unfold blend8, sample_ok.
  destruct (Rle_dec _ 0); [lia|].
  destruct (Rle_dec 255 _); [lia|].
  apply PyFacts.int_range; [lra | lia].
Qed.

Lemma blend_pixel_ok d px alpha : pixel_ok (blend_pixel d px alpha).
Proof.
  destruct d as [[dr dg] db], px as [[r g] b]. unfold blend_pixel.
  repeat split; apply blend8_ok.
Qed.

Lemma map_pixels_ok (g : pixel -> pixel) sz rows :
  (forall px, pixel_ok (g px)) -> image_ok (mkImage sz (map (map g) rows)).
Proof.
  intros Hg. unfold image_ok; cbn [img_rows].
  apply Forall_map, Forall_forall. intros row _.
  apply Forall_map, Forall_forall. intros px _. apply Hg.
Qed.

Lemma map_pixels_shape (g : pixel -> pixel) im :
  well_shaped im ->
  well_shaped (mkImage (img_size im) (map (map g) (img_rows im))).
Proof.
  unfold well_shaped, img_height, img_width. cbn [img_size img_rows].
  intros [Hh Hw]. split; [now rewrite length_map|].
  apply Forall_map. eapply Forall_impl; [|exact Hw].
  intros row Hrow; cbn beta. now rewrite length_map.
Qed.

Lemma luma_range px : pixel_ok px -> (0 <= Pillow.luma px <= 255)%Z.
Proof.
  destruct px as [[r g] b]. unfold pixel_ok, sample_ok, red_of, green_of,
    blue_of, Pillow.luma; cbn [fst snd]. intros (Hr & Hg & Hb).
  split.
  - apply Z.div_pos; lia.
  - apply Z.lt_succ_r, Z.div_lt_upper_bound; lia.
Qed.

Lemma sum_range (ls : list Z) :
  Forall (fun l => 0 <= l <= 255)%Z ls ->
  (0 <= fold_right Z.add 0 ls <= 255 * Z.of_nat (length ls))%Z.
Proof.
  induction 1 as [|l ls Hl _ IH]; cbn [fold_right length]; lia.
Qed.

Lemma mean_luma_range im :
  image_ok im -> (0 <= Pillow.mean_luma im <= 255)%Z.
Proof.
  intros Him. unfold Pillow.mean_luma.
  set (ls := map Pillow.luma (concat (img_rows im))).
  assert (Hls : Forall (fun l => 0 <= l <= 255)%Z ls).
  { unfold ls. apply Forall_map.
    eapply Forall_impl; [|apply Forall_concat; exact Him].
    intros px Hpx. now apply luma_range. }
  pose proof (sum_range ls Hls) as Hs.
  set (n := Z.of_nat (length ls)) in *.
  set (sum := fold_right Z.add 0%Z ls) in *.
  destruct (Z.eq_dec n 0) as [->|Hn].
  - change (2 * 0)%Z with 0%Z. rewrite Z.div_0_r. lia.
  - assert (0 < n)%Z by (unfold n in *; lia).
    split.
    + apply Z.div_pos; lia.
    + apply Z.lt_succ_r, Z.div_lt_upper_bound; lia.
Qed.

Lemma nth_nth_repeat (p : pixel) i j n m :
  nth i (nth j (repeat (repeat p m) n) []) p = p.
Proof.
  destruct (nth_in_or_default j (repeat (repeat p m) n) []) as [Hin | ->].
  - apply repeat_spec in Hin. rewrite Hin. apply nth_repeat.
  - destruct i; reflexivity.
Qed.

Lemma Pillow_crop_size : @crop_size_contract Pillow.library.
Proof. intros im l t r b _ _. reflexivity. Qed.

Lemma Pillow_crop_region : @crop_region_contract Pillow.library.
Proof. intros im l t r b _ _ _ _. reflexivity. Qed.

Lemma Pillow_resize_size : @resize_size_contract Pillow.library.
Proof.
  intros im [w' h'] Hw Hh. cbn [fst snd] in *.
  cbn [Image_resize Pillow.library]. unfold Pillow.resize.
  destruct (img_size im) as [w h].
  split; [reflexivity|].
  unfold well_shaped, img_height, img_width. cbn [img_size img_rows fst snd].
  split.
  - rewrite length_map, length_seq. lia.
  - apply Forall_map, Forall_forall. intros y _.
    rewrite length_map, length_seq. lia.
Qed.

Lemma Pillow_resize_uniform : @resize_uniform_contract Pillow.library.
Proof.
  intros p [w h] [w' h'] Hw Hh Hw' Hh'. cbn [fst snd] in *.
  cbn [Image_resize Pillow.library]. unfold Pillow.resize, uniform_image.
  cbn [img_size img_rows fst snd]. f_equal.
  assert (Hd : hd (0, 0, 0)%Z
                 (hd [] (repeat (repeat p (Z.to_nat w)) (Z.to_nat h))) = p).
  { destruct (Z.to_nat h) eqn:En; [lia|].
    destruct (Z.to_nat w) eqn:Em; [lia|]. reflexivity. }
  rewrite Hd.
  transitivity (map (fun _ : nat => repeat p (Z.to_nat w'))
                  (seq 0 (Z.to_nat h')));
    [|now rewrite map_const, length_seq].
  apply map_ext. intros y.
  transitivity (map (fun _ : nat => p) (seq 0 (Z.to_nat w')));
    [|now rewrite map_const, length_seq].
  apply map_ext. intros x.
  apply nth_nth_repeat.
Qed.

Lemma Pillow_enhance_shape : @enhance_shape_contract Pillow.library.
Proof.
  intros im f Hws. cbn [Color_enhance Contrast_enhance Pillow.library].
  unfold Pillow.color_enhance, Pillow.contrast_enhance.
  repeat split; try reflexivity; now apply map_pixels_shape.
Qed.

Lemma Pillow_enhance_range : @enhance_range_contract Pillow.library.
Proof.
  intros im f. cbn [Color_enhance Contrast_enhance Pillow.library].
  unfold Pillow.color_enhance, Pillow.contrast_enhance.
  split; apply map_pixels_ok; intros px; apply blend_pixel_ok.
Qed.

Lemma Pillow_contrast_blend : @contrast_blend_contract Pillow.library.
Proof.
  intros im f Him. exists (Pillow.mean_luma im).
  split; [now apply mean_luma_range | reflexivity].
Qed.

Lemma Pillow_quantize_size : @quantize_size_contract Pillow.library.
Proof. intros im pal d. reflexivity. Qed.

Lemma sample_image_ok : image_ok sample_image.
Proof.
  apply uniform_image_ok.
  unfold pixel_ok, sample_ok, red_of, green_of, blue_of; cbn [fst snd]. lia.
Qed.

(** ** The theorems at concrete inputs *)

Lemma channels_stay_in_range_witness :
  @enhance_range_contract Pillow.library /\
  pixel_ok (reduce_blue_in_pixel 12 34 56 2 1 0.35) /\
  image_ok (@apply_adjustments Pillow.library sample_image 120 5 1 2).
Proof.
  split; [exact Pillow_enhance_range|].
  destruct (@channels_stay_in_range Pillow.library Pillow_enhance_range)
    as (Hpx & _ & _ & _ & _ & _ & Hadj).
  split.
  - apply Hpx.
    unfold pixel_ok, sample_ok, red_of, green_of, blue_of; cbn [fst snd]. lia.
  - apply Hadj. exact sample_image_ok.
Defined.

Lemma geometry_dimensions_witness :
  (@crop_size_contract Pillow.library /\
   @resize_size_contract Pillow.library /\
   @enhance_shape_contract Pillow.library /\
   @quantize_size_contract Pillow.library) /\
  (fs_image sample_files = Some sample_image /\
   img_size sample_image = (5, 2)%Z /\ (0 < 5)%Z /\ (0 < 2)%Z) /\
  exists log out,
    @main Pillow.library default_args sample_files = (log, Returned) /\
    saved_image log = Some out /\ img_size out = (800, 480)%Z.
Proof.
  split; [|split].
  - split; [|split; [|split]].
    + exact Pillow_crop_size.
    + exact Pillow_resize_size.
    + exact Pillow_enhance_shape.
    + exact Pillow_quantize_size.
  - split; [reflexivity | split; [reflexivity | lia]].
  - exact (proj2 (@geometry_dimensions Pillow.library
                    Pillow_crop_size Pillow_resize_size
                    Pillow_enhance_shape Pillow_quantize_size
                    default_args sample_files sample_image 5%Z 2%Z
                    eq_refl eq_refl eq_refl eq_refl)).
Defined.

Lemma missing_palette_skips_quantizer_witness :
  (fs_image sample_files = Some sample_image /\
   fs_palette sample_files = None /\ img_height sample_image <> 0%Z) /\
  exists cropped log,
    @crop_to_ratio Pillow.library sample_image (5, 3) = Some cropped /\
    @main Pillow.library default_args sample_files
    = (log ++ [Print MsgPaletteNotFound;
               Save (@apply_adjustments Pillow.library
                       (apply_blue_reduction
                          (@Image_resize Pillow.library cropped
                             (800, 480)%Z) 0 0)
                       100 0 1 0);
               Print MsgDone], Returned).
Proof.
  assert (Hh : img_height sample_image <> 0%Z) by (intros E; discriminate E).
  split; [split; [reflexivity | split; [reflexivity | exact Hh]]|].
  destruct (@missing_palette_skips_quantizer Pillow.library
              default_args sample_files sample_image eq_refl eq_refl Hh)
    as (cropped & log & Hc & Hm & _).
  exists cropped, log. split; [exact Hc | exact Hm].
Defined.

Lemma pure_red_end_to_end_witness :
  (@crop_region_contract Pillow.library /\
   @resize_uniform_contract Pillow.library /\
   @contrast_blend_contract Pillow.library) /\
  (fs_image pure_red_files
   = Some (uniform_image (255, 0, 0)%Z (1600, 960)%Z) /\
   fs_palette pure_red_files = None) /\
  exists log out,
    @main Pillow.library default_args pure_red_files = (log, Returned) /\
    saved_image log = Some out /\
    img_size out = (800, 480)%Z /\
    img_rows out = repeat (repeat (255, 0, 0)%Z 800) 480.
Proof.
  split; [|split].
  - split; [|split].
    + exact Pillow_crop_region.
    + exact Pillow_resize_uniform.
    + exact Pillow_contrast_blend.
  - split; reflexivity.
  - exact (@pure_red_end_to_end Pillow.library Pillow_crop_region
             Pillow_resize_uniform Pillow_contrast_blend pure_red_files
             eq_refl eq_refl).
Defined.

(** * Further properties of the code *)

(** ** Shape of the curve *)

Lemma lim_value f x l l' :
  derivable_pt_lim f x l -> l = l' -> derivable_pt_lim f x l'.
Proof. now intros Hl <-. Qed.

Lemma lim_linear a x : derivable_pt_lim (fun t => a * t) x a.
Proof.
  apply (lim_value _ _ _ _
           (derivable_pt_lim_mult (fun _ => a) id x 0 1
              (derivable_pt_lim_const a x) (derivable_pt_lim_id x))).
  unfold id; ring.
Qed.

(** The derivative of [curve_tail] is a non-positive multiple of
    [1 - cos (2 pi x)]. *)
Lemma curve_tail_lim x :
  derivable_pt_lim curve_tail x
    ((12 * PI ^ 2 + 27) * (cos (2 * PI * x) - 1) * exp (- 3 * x)).
Proof.
  set (u := fun t => 6 * PI * sin (2 * PI * t) - 9 * cos (2 * PI * t)
                     + 9 + 4 * PI ^ 2).
  set (v := fun t => exp (- 3 * t)).
  assert (Hs : derivable_pt_lim (fun t => sin (2 * PI * t)) x
                 (cos (2 * PI * x) * (2 * PI))).
  { apply (derivable_pt_lim_comp (fun t => 2 * PI * t) sin).
    - apply lim_linear.
    - apply derivable_pt_lim_sin. }
  assert (Hc : derivable_pt_lim (fun t => cos (2 * PI * t)) x
                 (- sin (2 * PI * x) * (2 * PI))).
  { apply (derivable_pt_lim_comp (fun t => 2 * PI * t) cos).
    - apply lim_linear.
    - apply derivable_pt_lim_cos. }
  assert (Hu : derivable_pt_lim u x
                 (12 * PI ^ 2 * cos (2 * PI * x)
                  + 18 * PI * sin (2 * PI * x))).
  { unfold u.
    apply (lim_value _ _ _ _
      (derivable_pt_lim_plus
         (fun t => 6 * PI * sin (2 * PI * t) - 9 * cos (2 * PI * t) + 9)
         (fun _ => 4 * PI ^ 2) x _ _
         (derivable_pt_lim_plus
            (fun t => 6 * PI * sin (2 * PI * t) - 9 * cos (2 * PI * t))
            (fun _ => 9) x _ _
            (derivable_pt_lim_minus
               (fun t => 6 * PI * sin (2 * PI * t))
               (fun t => 9 * cos (2 * PI * t)) x _ _
               (derivable_pt_lim_scal (fun t => sin (2 * PI * t))
                  (6 * PI) x _ Hs)
               (derivable_pt_lim_scal (fun t => cos (2 * PI * t))
                  9 x _ Hc))
            (derivable_pt_lim_const 9 x))
         (derivable_pt_lim_const (4 * PI ^ 2) x))).
    ring. }
  assert (Hv : derivable_pt_lim v x (exp (- 3 * x) * (- 3))).
  { apply (derivable_pt_lim_comp (fun t => - 3 * t) exp).
    - apply lim_linear.
    - apply derivable_pt_lim_exp. }
  replace ((12 * PI ^ 2 + 27) * (cos (2 * PI * x) - 1) * exp (- 3 * x))
    with ((12 * PI ^ 2 * cos (2 * PI * x) + 18 * PI * sin (2 * PI * x)) * v x
          + u x * (exp (- 3 * x) * (- 3))) by (unfold u, v; ring).
  apply (derivable_pt_lim_mult u v); assumption.
Qed.

Lemma curve_tail_decreasing x y : x <= y -> curve_tail y <= curve_tail x.
Proof.
  revert x y.
  assert (pr : derivable curve_tail).
  { intros x. eexists. apply curve_tail_lim. }
  apply (nonpos_derivative_1 curve_tail pr).
  intros x. rewrite (derive_pt_eq_0 _ _ _ (pr x) (curve_tail_lim x)).
  pose proof (COS_bound (2 * PI * x)) as Hc.
  pose proof (exp_pos (- 3 * x)) as He.
  assert (Hk : 0 < 12 * PI ^ 2 + 27) by (pose proof PI_RGT_0; nra).
  assert (Hm : (12 * PI ^ 2 + 27) * (cos (2 * PI * x) - 1) <= 0) by nra.
  set (e := exp (- 3 * x)) in *.
  set (k := (12 * PI ^ 2 + 27) * (cos (2 * PI * x) - 1)) in *.
  nra.
Qed.

(** The normalised curve is a decreasing affine image of [curve_tail]. *)
Lemma normalized_by_tail x :
  normalized_x_expr x
  = exp 3 * (curve_tail x - 4 * PI ^ 2) / (4 * (PI ^ 2 * (1 - exp 3))).
Proof.
  unfold normalized_x_expr, curve_tail.
  pose proof curve_denominator_neg as HD.
  assert (H1 : exp (3 * x) * exp (- 3 * x) = 1).
  { rewrite <- exp_plus. replace (3 * x + - 3 * x) with 0 by ring.
    apply exp_0. }
  assert (H2 : exp (3 - 3 * x) = exp 3 * exp (- 3 * x)).
  { rewrite <- exp_plus. f_equal. ring. }
  rewrite H2.
  pose proof (exp_pos (- 3 * x)) as Hpos.
  assert (H3 : exp (3 * x) = / exp (- 3 * x)).
  { apply (Rmult_eq_reg_r (exp (- 3 * x))); [|lra].
    rewrite H1. field. lra. }
  rewrite H3.
  set (Em := exp (- 3 * x)) in *.
  assert (HD' : 1 - exp 3 <> 0) by (pose proof exp_3_gt_1; lra).
  assert (Hpi : PI <> 0) by (pose proof PI_RGT_0; lra).
  field. repeat split; lra.
Qed.

Lemma normalized_increasing x y :
  x <= y -> normalized_x_expr x <= normalized_x_expr y.
Proof.
  intros Hxy. rewrite !normalized_by_tail.
  pose proof (curve_tail_decreasing x y Hxy) as Ht.
  pose proof curve_denominator_neg as HD.
  pose proof (exp_pos 3) as He.
  set (D := PI ^ 2 * (1 - exp 3)) in *.
  assert (HiD : / (4 * D) < 0) by (apply Rinv_lt_0_compat; lra).
  unfold Rdiv.
  assert (exp 3 * (curve_tail y - 4 * PI ^ 2)
          <= exp 3 * (curve_tail x - 4 * PI ^ 2)) by nra.
  nra.
Qed.

Lemma curve_result_normalized x s :
  curve_result x s = (normalized_x_expr x - 1) * s + 1.
Proof. reflexivity. Qed.

Lemma normalized_at_zero : normalized_x_expr 0 = 0.
Proof.
  pose proof (curve_result_at_zero 1) as H.
  rewrite curve_result_normalized in H. lra.
Qed.

Lemma normalized_at_one : normalized_x_expr 1 = 1.
Proof.
  pose proof (curve_result_at_one 1) as H.
  rewrite curve_result_normalized in H. lra.
Qed.

(** X1.  The normalised curve is 0 at 0, 1 at 1 and never decreases: it
    stays in [0, 1] between 0 and 1 and at or above 1 afterwards. *)
Theorem normalized_curve_monotone :
  normalized_x_expr 0 = 0 /\
  normalized_x_expr 1 = 1 /\
  (forall x y : R, x <= y -> normalized_x_expr x <= normalized_x_expr y) /\
  (forall x : R, 0 <= x <= 1 -> 0 <= normalized_x_expr x <= 1) /\
  (forall x : R, 1 <= x -> 1 <= normalized_x_expr x).
Proof.
  split; [exact normalized_at_zero|].
  split; [exact normalized_at_one|].
  split; [exact normalized_increasing|].
  split.
  - intros x [H0 H1].
    pose proof (normalized_increasing 0 x H0) as Ha.
    pose proof (normalized_increasing x 1 H1) as Hb.
    rewrite normalized_at_zero in Ha. rewrite normalized_at_one in Hb. lra.
  - intros x H1.
    pose proof (normalized_increasing 1 x H1) as Ha.
    now rewrite normalized_at_one in Ha.
Qed.

Lemma normalized_curve_monotone_witness :
  (1 <= 1.5 /\ 0 <= 0.5 <= 1) /\
  normalized_x_expr 1 <= normalized_x_expr 1.5 /\
  0 <= normalized_x_expr 0.5 <= 1.
Proof.
  assert (H1 : 1 <= 1.5) by lra.
  assert (H2 : 0 <= 0.5 <= 1) by lra.
  destruct normalized_curve_monotone as (_ & _ & Hm & Hr & _).
  split; [split; assumption|].
  split; [exact (Hm 1 1.5 H1) | exact (Hr 0.5 H2)].
Defined.

Lemma curve_result_le_one x s : x <= 1 -> 0 <= s -> curve_result x s <= 1.
Proof.
  intros Hx Hs. rewrite curve_result_normalized.
  pose proof (normalized_increasing x 1 Hx) as Hn.
  rewrite normalized_at_one in Hn. nra.
Qed.

Lemma curve_result_ge_one x s : 1 <= x -> 0 <= s -> 1 <= curve_result x s.
Proof.
  intros Hx Hs. rewrite curve_result_normalized.
  pose proof (normalized_increasing 1 x Hx) as Hn.
  rewrite normalized_at_one in Hn. nra.
Qed.

Lemma curve_result_lower x s :
  0 <= x -> 0 <= s -> 1 - s <= curve_result x s.
Proof.
  intros Hx Hs. rewrite curve_result_normalized.
  pose proof (normalized_increasing 0 x Hx) as Hn.
  rewrite normalized_at_zero in Hn. nra.
Qed.

(** X2.  For a strength of at least 0 the blue multiplier never
    decreases with the blue ratio; it lies between [1 - strength] and 1
    up to blue ratio 2/3, is exactly 1 at 2/3 and at least 1 beyond. *)
Theorem multiplier_bounds :
  forall strength : R, 0 <= strength ->
    (forall x y : R, x <= y ->
        clone_norm x strength <= clone_norm y strength) /\
    (forall x : R, 0 <= x <= 2 / 3 ->
        1 - strength <= clone_norm x strength <= 1) /\
    clone_norm (2 / 3) strength = 1 /\
    (forall x : R, 2 / 3 <= x -> 1 <= clone_norm x strength).
Proof.
  intros s Hs.
  assert (Hc : forall x, clone_norm x s = curve_result (x * 1.5) s)
    by reflexivity.
  split; [|split; [|split]].
  - intros x y Hxy. rewrite !Hc, !curve_result_normalized.
    pose proof (normalized_increasing (x * 1.5) (y * 1.5) ltac:(lra)). nra.
  - intros x [H0 H1]. rewrite Hc. split.
    + apply curve_result_lower; lra.
    + apply curve_result_le_one; lra.
  - rewrite Hc. replace (2 / 3 * 1.5) with 1 by lra.
    apply curve_result_at_one.
  - intros x Hx. rewrite Hc. apply curve_result_ge_one; lra.
Qed.

Lemma multiplier_bounds_witness :
  (0 <= 10 /\ 0 <= 0.25 <= 2 / 3) /\
  1 - 10 <= clone_norm 0.25 10 <= 1.
Proof.
  assert (Hs : 0 <= 10) by lra.
  assert (Hx : 0 <= 0.25 <= 2 / 3) by lra.
  split; [split; assumption|].
  exact (proj1 (proj2 (multiplier_bounds 10 Hs)) 0.25 Hx).
Defined.

(** ** More on the Pixel Corrector *)

Lemma clamp_int_le v (b : Z) :
  (0 <= b)%Z -> v <= IZR b -> (Py.int (Py.max 0 (Py.min 255 v)) <= b)%Z.
Proof.
  intros Hb Hv.
  pose proof (PyFacts.clamp_range v) as Hc.
  rewrite PyFacts.int_nonneg by lra.
  assert (Hle : Py.max 0 (Py.min 255 v) <= IZR b).
  { apply IZR_le in Hb.
    rewrite PyFacts.max_Rmax, PyFacts.min_Rmin. unfold Rmax, Rmin.
    destruct (Rle_dec 255 v); destruct (Rle_dec 0 _); lra. }
  pose proof (Zfloor_bound (Py.max 0 (Py.min 255 v))) as [Hf _].
  apply le_IZR. lra.
Qed.

Lemma clamp_int_ge v (b : Z) :
  (b <= 255)%Z -> IZR b <= v -> (b <= Py.int (Py.max 0 (Py.min 255 v)))%Z.
Proof.
  intros Hb Hv.
  pose proof (PyFacts.clamp_range v) as Hc.
  rewrite PyFacts.int_nonneg by lra.
  apply Zfloor_lub. apply IZR_le in Hb.
  rewrite PyFacts.max_Rmax, PyFacts.min_Rmin. unfold Rmax, Rmin.
  destruct (Rle_dec 255 v); destruct (Rle_dec 0 _); lra.
Qed.

Lemma clamp_int_exact (b : Z) :
  sample_ok b -> Py.int (Py.max 0 (Py.min 255 (IZR b))) = b.
Proof.
  intros [H0 H1]. apply Z.le_antisymm.
  - apply clamp_int_le; [assumption | lra].
  - apply clamp_int_ge; [assumption | lra].
Qed.

Lemma reduce_blue_red_green r g b s d lt :
  red_of (reduce_blue_in_pixel r g b s d lt) = r /\
  green_of (reduce_blue_in_pixel r g b s d lt) = g.
Proof.
  unfold reduce_blue_in_pixel.
  destruct (Py.eqb s 0 && Py.eqb d 0); split; reflexivity.
Qed.

(** X3.  A pixel without blue keeps its blue sample 0, and so comes out
    unchanged, for all parameters. *)
Theorem zero_blue_stays_zero :
  forall (r g : Z) (strength dark_strength luminance_threshold : R),
    pixel_ok (r, g, 0%Z) ->
    reduce_blue_in_pixel r g 0 strength dark_strength luminance_threshold
    = (r, g, 0%Z).
Proof.
  intros r g s d lt _. unfold reduce_blue_in_pixel.
  destruct (Py.eqb s 0 && Py.eqb d 0); [reflexivity|].
  cbv zeta.
  replace (IZR 0 / 255.0 * reduction_factor_of r g 0 s d lt * 255)
    with (IZR 0) by (unfold Rdiv; ring).
  rewrite clamp_int_exact; [reflexivity | unfold sample_ok; lia].
Qed.

Lemma zero_blue_stays_zero_witness :
  pixel_ok (200, 30, 0)%Z /\
  reduce_blue_in_pixel 200 30 0 10 3 0.35 = (200, 30, 0)%Z.
Proof.
  assert (Hok : pixel_ok (200, 30, 0)%Z).
  { unfold pixel_ok, sample_ok, red_of, green_of, blue_of; cbn [fst snd].
    lia. }
  split; [exact Hok | exact (zero_blue_stays_zero 200 30 10 3 0.35 Hok)].
Defined.

(** The reduction factor when only the curve acts. *)
Lemma reduction_factor_curve_only r g b s lt :
  0 < s ->
  reduction_factor_of r g b s 0 lt
  = curve_result
      (IZR b / 255 / (IZR r / 255 + IZR g / 255 + IZR b / 255 + 0.000001)
       * 1.5) s.
Proof.
  intros Hs. unfold reduction_factor_of.
  rewrite PyFacts.gtb_irrefl. cbn [andb].
  rewrite (proj2 (PyFacts.gtb_true s 0)) by assumption.
  replace 255.0 with 255 by lra. replace 1.0 with 1 by lra.
  apply Rmult_1_l.
Qed.

(** X4.  With dark strength 0 and a strength of at least 0, the curve
    splits the pixels at blue = 2 (red + green): below or at it the blue
    sample never grows, above it the blue sample never shrinks. *)
Theorem curve_only_dichotomy :
  forall (r g b : Z) (strength luminance_threshold : R),
    pixel_ok (r, g, b) -> 0 <= strength ->
    ((b <= 2 * (r + g))%Z ->
     (blue_of (reduce_blue_in_pixel r g b strength 0 luminance_threshold)
      <= b)%Z) /\
    ((2 * (r + g) < b)%Z ->
     (b <= blue_of (reduce_blue_in_pixel r g b strength 0
                      luminance_threshold))%Z).
Proof.
  intros r g b s lt (Hr & Hg & Hb) Hs.
  unfold sample_ok, red_of, green_of, blue_of in *; cbn [fst snd] in *.
  destruct (Req_dec_T s 0) as [->|Hne].
  { rewrite reduce_blue_fast_path. cbn [snd]. split; intros; lia. }
  assert (Hpos : 0 < s) by lra.
  rewrite reduce_blue_slow_path by lra. cbn [snd].
  rewrite reduction_factor_curve_only by assumption.
  replace 255.0 with 255 by lra.
  assert (HrR : 0 <= IZR r <= 255) by (split; apply IZR_le; lia).
  assert (HgR : 0 <= IZR g <= 255) by (split; apply IZR_le; lia).
  assert (HbR : 0 <= IZR b <= 255) by (split; apply IZR_le; lia).
  set (total := IZR r / 255 + IZR g / 255 + IZR b / 255 + 0.000001).
  assert (Htot : 0 < total) by (unfold total; lra).
  set (x := IZR b / 255 / total * 1.5).
  split; intros Hcmp.
  - assert (Hx : x <= 1).
    { unfold x.
      assert (Hn : IZR b / 255 * 1.5 <= total).
      { apply IZR_le in Hcmp. rewrite mult_IZR, plus_IZR in Hcmp.
        unfold total. lra. }
      replace (IZR b / 255 / total * 1.5)
        with (IZR b / 255 * 1.5 / total) by (field; lra).
      apply (Rmult_le_reg_r total); [assumption|].
      replace (IZR b / 255 * 1.5 / total * total)
        with (IZR b / 255 * 1.5) by (field; lra).
      lra. }
    pose proof (curve_result_le_one x s Hx Hs) as Hrf.
    apply clamp_int_le; [lia|]. nra.
  - assert (Hx : 1 <= x).
    { unfold x.
      assert (Hn : total <= IZR b / 255 * 1.5).
      { assert (Hz : (2 * (r + g) + 1 <= b)%Z) by lia.
        apply IZR_le in Hz. rewrite plus_IZR, mult_IZR, plus_IZR in Hz.
        unfold total. lra. }
      replace (IZR b / 255 / total * 1.5)
        with (IZR b / 255 * 1.5 / total) by (field; lra).
      apply (Rmult_le_reg_r total); [assumption|].
      replace (IZR b / 255 * 1.5 / total * total)
        with (IZR b / 255 * 1.5) by (field; lra).
      lra. }
    pose proof (curve_result_ge_one x s Hx Hs) as Hrf.
    apply clamp_int_ge; [lia|]. nra.
Qed.

Lemma curve_only_dichotomy_witness :
  (pixel_ok (120, 80, 200)%Z /\ 0 <= 4 /\ (200 <= 2 * (120 + 80))%Z) /\
  (blue_of (reduce_blue_in_pixel 120 80 200 4 0 0.35) <= 200)%Z.
Proof.
  assert (Hok : pixel_ok (120, 80, 200)%Z).
  { unfold pixel_ok, sample_ok, red_of, green_of, blue_of; cbn [fst snd].
    lia. }
  assert (Hs : 0 <= 4) by lra.
  assert (Hc : (200 <= 2 * (120 + 80))%Z) by lia.
  split; [repeat split; assumption || lia|].
  exact (proj1 (curve_only_dichotomy 120 80 200 4 0.35 Hok Hs) Hc).
Defined.




(** ** More on the Frame Colorizer *)

(** X6.  On a well-shaped image with at least one row the Frame
    Colorizer returns a well-shaped image of the same size, with as many
    rows. *)
Theorem frame_colorizer_keeps_shape :
  forall (image : frame) (strength dark_strength : R),
    well_shaped image -> (0 < img_height image)%Z ->
    img_size (apply_blue_reduction image strength dark_strength)
    = img_size image /\
    well_shaped (apply_blue_reduction image strength dark_strength) /\
    length (img_rows (apply_blue_reduction image strength dark_strength))
    = length (img_rows image).
Proof.
  intros image s d Hws Hpos.
  destruct (apply_blue_reduction_shape image s d Hws Hpos) as [Hs Hw].
  split; [exact Hs|]. split; [exact Hw|].
  unfold apply_blue_reduction.
  destruct (Py.eqb s 0 && Py.eqb d 0); [reflexivity|].
  unfold Image_fromarray, np_array. cbn [img_rows]. apply length_map.
Qed.

Lemma sample_image_shaped :
  well_shaped sample_image /\ (0 < img_height sample_image)%Z.
Proof.
  split; [|reflexivity].
  split; [reflexivity|].
  repeat constructor.
Qed.

Lemma frame_colorizer_keeps_shape_witness :
  (well_shaped sample_image /\ (0 < img_height sample_image)%Z) /\
  img_size (apply_blue_reduction sample_image 10 2) = (5, 2)%Z.
Proof.
  split; [exact sample_image_shaped|].
  exact (proj1 (frame_colorizer_keeps_shape sample_image 10 2
                  (proj1 sample_image_shaped) (proj2 sample_image_shaped))).
Defined.

(** X7.  The Frame Colorizer leaves the red and the green plane of the
    image as they are, and corrects each pixel on its own with the default
    luminance threshold. *)
Theorem frame_colorizer_planes :
  forall (image : frame) (strength dark_strength : R),
    image_ok image ->
    map (map red_of)
      (img_rows (apply_blue_reduction image strength dark_strength))
    = map (map red_of) (img_rows image) /\
    map (map green_of)
      (img_rows (apply_blue_reduction image strength dark_strength))
    = map (map green_of) (img_rows image) /\
    map (map blue_of)
      (img_rows (apply_blue_reduction image strength dark_strength))
    = map (map (fun px : pixel =>
                  blue_of (reduce_blue_in_pixel (red_of px) (green_of px)
                             (blue_of px) strength dark_strength 0.35)))
        (img_rows image).
Proof.
  intros image s d _. unfold apply_blue_reduction.
  destruct (Py.eqb s 0 && Py.eqb d 0) eqn:Efast.
  - split; [reflexivity|]. split; [reflexivity|].
    apply andb_prop in Efast. destruct Efast as [Es Ed].
    apply PyFacts.eqb_true in Es, Ed. subst s d.
    apply map_ext. intros row. apply map_ext. intros [[r g] b].
    now rewrite reduce_blue_fast_path.
  - unfold Image_fromarray, np_array. cbn [img_rows].
    rewrite !map_map.
    split; [|split]; apply map_ext; intros row; rewrite map_map;
      apply map_ext; intros [[r g] b];
      try apply (reduce_blue_red_green r g b s d default_luminance_threshold);
      reflexivity.
Qed.

Lemma frame_colorizer_planes_witness :
  image_ok sample_image /\
  map (map red_of) (img_rows (apply_blue_reduction sample_image 10 2))
  = map (map red_of) (img_rows sample_image).
Proof.
  split; [exact sample_image_ok|].
  exact (proj1 (frame_colorizer_planes sample_image 10 2 sample_image_ok)).
Defined.

(** ** More on the Adjustment Stage *)

(** On a sample in range the black-level step is integer arithmetic. *)
Lemma black_level_sample_int bl c :
  (0 < bl)%Z -> sample_ok c ->
  black_level_sample bl c = black_level_int bl c.
Proof.
  intros Hbl [Hc0 Hc1]. unfold black_level_sample, black_level_int.
  set (q := (bl * 255 / 100)%Z).
  assert (Hq : IZR q <= IZR bl * 255 / 100 < IZR q + 1).
  { pose proof (Z.div_mod (bl * 255) 100 ltac:(lia)) as Hdm.
    pose proof (Z.mod_pos_bound (bl * 255) 100 ltac:(lia)) as [Hm0 Hm1].
    fold q in Hdm.
    apply (f_equal IZR) in Hdm.
    rewrite plus_IZR, !mult_IZR in Hdm.
    apply IZR_le in Hm0. apply IZR_lt in Hm1. lra. }
  assert (Hq0 : (0 <= q)%Z) by (unfold q; apply Z.div_pos; lia).
  apply IZR_le in Hc0, Hc1.
  pose proof (IZR_le _ _ Hq0) as HqR.
  set (x := IZR c + IZR bl * 255 / 100) in *.
  pose proof (PyFacts.clip_range x 0 255 ltac:(lra)) as Hclip.
  rewrite PyFacts.astype_uint8_exact by assumption.
  unfold Py.clip. rewrite (Rmax_left x 0) by (unfold x; lra).
  destruct (Z_le_gt_dec 255 (c + q)) as [Hbig | Hsmall].
  - rewrite Z.min_l by lia.
    assert (255 <= x).
    { apply IZR_le in Hbig. rewrite plus_IZR in Hbig. unfold x. lra. }
    rewrite Rmin_right by assumption. apply ZfloorZ.
  - rewrite Z.min_r by lia.
    assert (Hlt : x < 255).
    { assert (Hz : (c + q + 1 <= 255)%Z) by lia.
      apply IZR_le in Hz. rewrite !plus_IZR in Hz. unfold x. lra. }
    rewrite Rmin_left by lra.
    apply Zfloor_eq. rewrite plus_IZR. unfold x. lra.
Qed.

(** X8.  For a positive black level and an image with samples in range,
    the black-level step adds [floor (black_level * 255 / 100)] to every
    sample and caps it at 255; so no sample is lowered, and from black
    level 100 on every sample is 255. *)
Theorem black_level_integer_form :
  forall (image : frame) (black_level : Z),
    (0 < black_level)%Z -> image_ok image ->
    img_rows (adjust_black_level image black_level)
    = map (map (fun px : pixel =>
                  (black_level_int black_level (red_of px),
                   black_level_int black_level (green_of px),
                   black_level_int black_level (blue_of px))))
        (img_rows image) /\
    (forall c, sample_ok c ->
        (c <= black_level_int black_level c <= 255)%Z) /\
    ((100 <= black_level)%Z ->
     forall c, sample_ok c -> black_level_int black_level c = 255%Z).
Proof.
  intros image bl Hbl Hok. split; [|split].
  - unfold adjust_black_level.
    rewrite (proj2 (Z.gtb_lt bl 0)) by assumption.
    unfold Image_fromarray, np_array. cbn [img_rows].
    unfold image_ok in Hok.
    apply map_ext_in. intros row Hrow.
    apply map_ext_in. intros [[r g] b] Hpx.
    rewrite Forall_forall in Hok. specialize (Hok row Hrow).
    rewrite Forall_forall in Hok. destruct (Hok _ Hpx) as (Hr & Hg & Hb).
    unfold red_of, green_of, blue_of in *; cbn [fst snd] in *.
    now rewrite !black_level_sample_int by assumption.
  - intros c [Hc0 Hc1]. unfold black_level_int.
    assert (0 <= bl * 255 / 100)%Z by (apply Z.div_pos; lia). lia.
  - intros Hbig c [Hc0 Hc1]. unfold black_level_int.
    assert (255 <= bl * 255 / 100)%Z
      by (apply Z.div_le_lower_bound; lia).
    lia.
Qed.

Lemma black_level_integer_form_witness :
  ((0 < 20)%Z /\ image_ok sample_image /\ sample_ok 200) /\
  (200 <= black_level_int 20 200 <= 255)%Z.
Proof.
  assert (Hbl : (0 < 20)%Z) by lia.
  assert (Hc : sample_ok 200) by (unfold sample_ok; lia).
  split; [repeat split; try exact sample_image_ok; lia|].
  exact (proj1 (proj2 (black_level_integer_form sample_image 20 Hbl
                         sample_image_ok)) 200%Z Hc).
Defined.

Lemma clip_monotone x y lo hi :
  x <= y -> Py.clip x lo hi <= Py.clip y lo hi.
Proof.
  intros Hxy. unfold Py.clip.
  apply Rle_min_compat_r, Rle_max_compat_r, Hxy.
Qed.

Lemma clip_lower x c :
  c <= x -> c <= 255 -> c <= Py.clip x 0 255.
Proof.
  intros Hx Hc. unfold Py.clip. apply Rmin_glb; [|assumption].
  apply Rle_trans with x; [assumption | apply Rmax_l].
Qed.

(** X9.  For positive shadows and a pixel with samples in range, the
    shadow step applies one and the same non-decreasing map to the three
    samples, which lowers no sample and stays within 255: the order of the
    channels is kept and white stays white. *)
Theorem shadow_lift_uniform :
  forall (shadows : R) (r g b : Z),
    0 < shadows -> pixel_ok (r, g, b) ->
    exists lift : Z -> Z,
      shadow_pixel shadows (r, g, b) = (lift r, lift g, lift b) /\
      (forall c c', (c <= c')%Z -> (lift c <= lift c')%Z) /\
      (forall c, sample_ok c -> (c <= lift c <= 255)%Z).
Proof.
  intros sh r g b Hsh (Hr & Hg & Hb).
  unfold sample_ok, red_of, green_of, blue_of in *; cbn [fst snd] in *.
  assert (HrR : 0 <= IZR r <= 255) by (split; apply IZR_le; lia).
  assert (HgR : 0 <= IZR g <= 255) by (split; apply IZR_le; lia).
  assert (HbR : 0 <= IZR b <= 255) by (split; apply IZR_le; lia).
  set (adj := (255 - (0.299 * IZR r + 0.587 * IZR g + 0.114 * IZR b)) / 255
              * sh * 5).
  assert (Hadj : 0 <= adj) by (unfold adj; nra).
  exists (fun c => Py.astype_uint8 (Py.clip (IZR c + adj) 0 255)).
  split; [reflexivity|].
  assert (Hfloor : forall c,
             Py.astype_uint8 (Py.clip (IZR c + adj) 0 255)
             = Zfloor (Py.clip (IZR c + adj) 0 255)).
  { intros c. apply PyFacts.astype_uint8_exact.
    apply PyFacts.clip_range; lra. }
  split.
  - intros c c' Hcc. rewrite !Hfloor. apply Zfloor_le.
    apply IZR_le in Hcc. apply clip_monotone. lra.
  - intros c [Hc0 Hc1].
    pose proof (PyFacts.astype_uint8_clip (IZR c + adj)) as [_ Hhi].
    split; [|exact Hhi].
    rewrite Hfloor. apply Zfloor_lub.
    apply IZR_le in Hc0, Hc1. apply clip_lower; lra.
Qed.

Lemma shadow_lift_uniform_witness :
  (0 < 2 /\ pixel_ok (40, 90, 10)%Z) /\
  exists lift : Z -> Z,
    shadow_pixel 2 (40, 90, 10)%Z = (lift 40%Z, lift 90%Z, lift 10%Z) /\
    (forall c c', (c <= c')%Z -> (lift c <= lift c')%Z) /\
    (forall c, sample_ok c -> (c <= lift c <= 255)%Z).
Proof.
  assert (Hsh : 0 < 2) by lra.
  assert (Hok : pixel_ok (40, 90, 10)%Z).
  { unfold pixel_ok, sample_ok, red_of, green_of, blue_of; cbn [fst snd].
    lia. }
  split; [split; assumption|].
  exact (shadow_lift_uniform 2 40 90 10 Hsh Hok).
Defined.

Section AdjustmentShape.

Context `{Imaging}.

(** X10.  On a well-shaped image with at least one row the Adjustment
    Stage keeps the size and the shape: the black-level and shadow steps
    always, the whole stage when the library's enhancers do. *)
Theorem adjustments_keep_shape :
  forall (image : frame) (saturation black_level : Z) (contrast shadows : R),
    well_shaped image -> (0 < img_height image)%Z ->
    (img_size (adjust_black_level image black_level) = img_size image /\
     well_shaped (adjust_black_level image black_level)) /\
    (img_size (adjust_shadows image shadows) = img_size image /\
     well_shaped (adjust_shadows image shadows)) /\
    (enhance_shape_contract ->
     img_size (apply_adjustments image saturation black_level contrast shadows)
     = img_size image /\
     well_shaped
       (apply_adjustments image saturation black_level contrast shadows)).
Proof.
  intros image sat bl c sh Hws Hpos. split; [|split].
  - now apply adjust_black_level_shape.
  - now apply adjust_shadows_shape.
  - intros Henh. now apply apply_adjustments_shape.
Qed.

End AdjustmentShape.

Lemma adjustments_keep_shape_witness :
  (well_shaped sample_image /\ (0 < img_height sample_image)%Z /\
   @enhance_shape_contract Pillow.library) /\
  img_size (@apply_adjustments Pillow.library sample_image 120 5 1 2)
  = (5, 2)%Z.
Proof.
  split.
  - split; [exact (proj1 sample_image_shaped)|].
    split; [exact (proj2 sample_image_shaped) | exact Pillow_enhance_shape].
  - exact (proj1 (proj2 (proj2 (@adjustments_keep_shape Pillow.library
                    sample_image 120 5 1 2
                    (proj1 sample_image_shaped) (proj2 sample_image_shaped)))
                    Pillow_enhance_shape)).
Defined.

(** ** More on the Geometry Stage *)

Section Geometry.

Context `{Imaging}.

(** X11.  On an image of positive size and for a positive ratio the crop
    box lies inside the image, spans one side in full and is centred on
    the other: the two margins differ by at most one pixel, the extra
    pixel going to the right or to the bottom. *)
Theorem crop_box_centered :
  forall (im : frame) (w h : Z) (n d : R),
    img_size im = (w, h) -> (0 < w)%Z -> (0 < h)%Z -> 0 < n -> 0 < d ->
    exists l t r b : Z,
      crop_to_ratio im (n, d) = Some (Image_crop im (l, t, r, b)) /\
      (0 <= l <= r /\ r <= w)%Z /\ (0 <= t <= b /\ b <= h)%Z /\
      (l <= w - r <= l + 1)%Z /\ (t <= h - b <= t + 1)%Z /\
      ((l = 0 /\ r = w)%Z \/ (t = 0 /\ b = h)%Z).
Proof.
  intros im w h n d Hsz Hw Hh Hn Hd.
  assert (Ht : 0 < n / d) by (apply Rdiv_lt_0_compat; assumption).
  assert (HhR : 0 < IZR h) by (apply IZR_lt; assumption).
  assert (HwR : 0 < IZR w) by (apply IZR_lt; assumption).
  unfold crop_to_ratio. rewrite Hsz.
  rewrite (proj2 (PyFacts.eqb_false (snd (n, d)) 0)) by (cbn [snd]; lra).
  cbn [fst snd].
  destruct (h =? 0)%Z eqn:Eh; [lia|].
  destruct (Py.gtb (IZR w / IZR h) (n / d)) eqn:Eg.
  - apply PyFacts.gtb_true in Eg.
    assert (H0 : 0 <= IZR h * (n / d)) by nra.
    rewrite PyFacts.int_nonneg by assumption.
    set (nw := Zfloor (IZR h * (n / d))).
    assert (Hnw0 : (0 <= nw)%Z) by (apply Zfloor_lub; assumption).
    assert (Hnw1 : (nw <= w)%Z).
    { apply le_IZR. pose proof (Zfloor_bound (IZR h * (n / d))) as [Hb _].
      fold nw in Hb.
      apply (Rmult_lt_compat_r (IZR h)) in Eg; [|assumption].
      replace (IZR w / IZR h * IZR h) with (IZR w) in Eg by (field; lra).
      lra. }
    exists ((w - nw) / 2)%Z, 0%Z, ((w - nw) / 2 + nw)%Z, h.
    split; [reflexivity|].
    pose proof (Z.div_mod (w - nw) 2 ltac:(lia)) as Hdm.
    pose proof (Z.mod_pos_bound (w - nw) 2 ltac:(lia)) as Hmod.
    repeat split; lia.
  - apply PyFacts.gtb_false in Eg.
    rewrite (proj2 (PyFacts.eqb_false (n / d) 0)) by lra.
    assert (H0 : 0 < IZR w / (n / d))
      by (apply Rdiv_lt_0_compat; assumption).
    rewrite PyFacts.int_nonneg by lra.
    set (nh := Zfloor (IZR w / (n / d))).
    assert (Hnh0 : (0 <= nh)%Z) by (apply Zfloor_lub; lra).
    assert (Hnh1 : (nh <= h)%Z).
    { apply le_IZR. pose proof (Zfloor_bound (IZR w / (n / d))) as [Hb _].
      fold nh in Hb.
      assert (IZR w / (n / d) <= IZR h); [|lra].
      apply (Rmult_le_compat_r (IZR h)) in Eg; [|lra].
      replace (IZR w / IZR h * IZR h) with (IZR w) in Eg by (field; lra).
      apply (Rmult_le_reg_r (n / d)); [assumption|].
      replace (IZR w / (n / d) * (n / d)) with (IZR w) by (field; lra).
      lra. }
    exists 0%Z, ((h - nh) / 2)%Z, w, ((h - nh) / 2 + nh)%Z.
    split; [reflexivity|].
    pose proof (Z.div_mod (h - nh) 2 ltac:(lia)) as Hdm.
    pose proof (Z.mod_pos_bound (h - nh) 2 ltac:(lia)) as Hmod.
    repeat split; lia.
Qed.


(** X13.  An image that already has the target ratio of its orientation
    (3 w = 5 h in landscape, 5 w = 3 h in portrait) is cropped to its
    whole extent. *)
Theorem exact_ratio_not_cropped :
  forall (im : frame) (w h : Z),
    img_size im = (w, h) -> (0 < w)%Z -> (0 < h)%Z ->
    (3 * w = 5 * h \/ 5 * w = 3 * h)%Z ->
    crop_to_ratio im (fst (fst (detect_orientation w h)))
    = Some (Image_crop im (0, 0, w, h)%Z).
Proof.
  intros im w h Hsz Hw Hh Hratio.
  assert (HhR : 0 < IZR h) by (apply IZR_lt; assumption).
  assert (HwR : 0 < IZR w) by (apply IZR_lt; assumption).
  unfold detect_orientation, crop_to_ratio. rewrite Hsz.
  assert (Hfinish : forall nh : Z, nh = h ->
            Some (Image_crop im (0, (h - nh) / 2, w, (h - nh) / 2 + nh)%Z)
            = Some (Image_crop im (0, 0, w, h)%Z)).
  { intros nh ->. replace (h - h)%Z with 0%Z by lia.
    change (0 / 2)%Z with 0%Z. now rewrite Z.add_0_l. }
  destruct Hratio as [Hl | Hp].
  - assert (Hgt : (w >? h)%Z = true) by (apply Z.gtb_lt; lia).
    rewrite Hgt. cbn [fst snd].
    apply (f_equal IZR) in Hl. rewrite !mult_IZR in Hl.
    rewrite (proj2 (PyFacts.eqb_false 3 0)) by lra.
    destruct (h =? 0)%Z eqn:Eh; [lia|].
    assert (Hcur : IZR w / IZR h = 5 / 3) by (field_simplify_eq; lra).
    rewrite (proj2 (PyFacts.gtb_false (IZR w / IZR h) (5 / 3))) by lra.
    rewrite (proj2 (PyFacts.eqb_false (5 / 3) 0)) by lra.
    apply Hfinish.
    replace (IZR w / (5 / 3)) with (IZR h) by lra.
    apply PyFacts.int_IZR.
  - assert (Hgt : (w >? h)%Z = false).
    { destruct (w >? h)%Z eqn:E; [|reflexivity].
      apply Z.gtb_lt in E. lia. }
    rewrite Hgt. cbn [fst snd].
    apply (f_equal IZR) in Hp. rewrite !mult_IZR in Hp.
    rewrite (proj2 (PyFacts.eqb_false 5 0)) by lra.
    destruct (h =? 0)%Z eqn:Eh; [lia|].
    assert (Hcur : IZR w / IZR h = 3 / 5) by (field_simplify_eq; lra).
    rewrite (proj2 (PyFacts.gtb_false (IZR w / IZR h) (3 / 5))) by lra.
    rewrite (proj2 (PyFacts.eqb_false (3 / 5) 0)) by lra.
    apply Hfinish.
    replace (IZR w / (3 / 5)) with (IZR h) by lra.
    apply PyFacts.int_IZR.
Qed.

End Geometry.

Lemma crop_box_centered_witness :
  (img_size sample_image = (5, 2)%Z /\ (0 < 5)%Z /\ (0 < 2)%Z /\
   0 < 5 /\ 0 < 3) /\
  exists l t r b : Z,
    @crop_to_ratio Pillow.library sample_image (5, 3)
    = Some (@Image_crop Pillow.library sample_image (l, t, r, b)) /\
    (0 <= l <= r /\ r <= 5)%Z /\ (0 <= t <= b /\ b <= 2)%Z /\
    (l <= 5 - r <= l + 1)%Z /\ (t <= 2 - b <= t + 1)%Z /\
    ((l = 0 /\ r = 5)%Z \/ (t = 0 /\ b = 2)%Z).
Proof.
  assert (Hn : 0 < 5) by lra.
  assert (Hd : 0 < 3) by lra.
  split; [repeat split; assumption || lia|].
  exact (@crop_box_centered Pillow.library sample_image 5 2 5 3
           eq_refl eq_refl eq_refl Hn Hd).
Defined.


Lemma exact_ratio_not_cropped_witness :
  (img_size (uniform_image (0, 0, 0)%Z (10, 6)%Z) = (10, 6)%Z /\
   (0 < 10)%Z /\ (0 < 6)%Z /\ (3 * 10 = 5 * 6 \/ 5 * 10 = 3 * 6)%Z) /\
  @crop_to_ratio Pillow.library (uniform_image (0, 0, 0)%Z (10, 6)%Z) (5, 3)
  = Some (@Image_crop Pillow.library (uniform_image (0, 0, 0)%Z (10, 6)%Z)
            (0, 0, 10, 6)%Z).
Proof.
  split; [repeat split; left; reflexivity|].
  exact (@exact_ratio_not_cropped Pillow.library
           (uniform_image (0, 0, 0)%Z (10, 6)%Z) 10 6
           eq_refl eq_refl eq_refl (or_introl eq_refl)).
Defined.

(** ** More on the orchestrator *)

Section Orchestrator.

Context `{Imaging}.

(** A run on an image whose crop returns: the log up to the palette test,
    the optional warning, the saved image and the final message. *)
Lemma main_on_cropped a fs im c :
  fs_image fs = Some im ->
  crop_to_ratio im
    (fst (fst (detect_orientation (img_width im) (img_height im))))
  = Some c ->
  main a fs
  = ([Makedirs; Print MsgProcessing; Print (MsgSettings a);
      Print (MsgOriginalDimensions (img_size im));
      Print (MsgDetected
               (snd (detect_orientation (img_width im) (img_height im)))
               (fst (fst (detect_orientation (img_width im) (img_height im))))
               (snd (fst (detect_orientation (img_width im)
                            (img_height im)))))]
     ++ match fs_palette fs with
        | Some _ => []
        | None => [Print MsgPaletteNotFound]
        end
     ++ [Save
           (let adjusted :=
              apply_adjustments
                (apply_blue_reduction
                   (Image_resize c
                      (snd (fst (detect_orientation (img_width im)
                                   (img_height im)))))
                   (blue_reduction a) (dark_blue_reduction a))
                (saturation a) (black_level a) (contrast a) (shadows a) in
            match fs_palette fs with
            | Some palette_img =>
              simple_dither adjusted palette_img (dither_method_arg a)
            | None => adjusted
            end);
         Print MsgDone],
     Returned).
Proof.
  intros Him Hc. unfold main. rewrite Him.
  unfold img_width, img_height in *.
  destruct (img_size im) as [w h]. cbn [fst snd] in *.
  destruct (detect_orientation w h) as [[cr fd] o]. cbn [fst snd] in *.
  rewrite Hc.
  destruct (fs_palette fs) as [pal|]; reflexivity.
Qed.

Lemma main_crop_returns im :
  img_height im <> 0%Z ->
  exists c,
    crop_to_ratio im
      (fst (fst (detect_orientation (img_width im) (img_height im))))
    = Some c.
Proof.
  intros Hh. unfold detect_orientation.
  destruct (img_width im >? img_height im)%Z; cbn [fst snd];
    apply crop_to_ratio_returns; assumption || lra.
Qed.



(** X15.  When the palette file is there (and the input image, with a
    non-zero height), the saved image is the quantised adjusted image,
    without dithering for the method 'None' and with Floyd-Steinberg
    dithering otherwise, and no palette warning is printed. *)
Theorem palette_present_quantizes :
  forall (a : args) (fs : files) (im pal : frame),
    fs_image fs = Some im -> fs_palette fs = Some pal ->
    img_height im <> 0%Z ->
    exists cropped,
      crop_to_ratio im
        (fst (fst (detect_orientation (img_width im) (img_height im))))
      = Some cropped /\
      saved_image (fst (main a fs))
      = Some (quantize_rgb
                (apply_adjustments
                   (apply_blue_reduction
                      (Image_resize cropped
                         (snd (fst (detect_orientation (img_width im)
                                      (img_height im)))))
                      (blue_reduction a) (dark_blue_reduction a))
                   (saturation a) (black_level a) (contrast a) (shadows a))
                pal
                (match dither_method_arg a with
                 | NoDither => NONE
                 | FloydSteinberg => FLOYDSTEINBERG
                 end)) /\
      ~ In (Print MsgPaletteNotFound) (fst (main a fs)).
Proof.
  intros a fs im pal Him Hpal Hh.
  destruct (main_crop_returns im Hh) as (c & Hc).
  exists c. split; [exact Hc|].
  rewrite (main_on_cropped a fs im c Him Hc), Hpal.
  cbn [fst saved_image app]. split.
  - unfold simple_dither. destruct (dither_method_arg a); reflexivity.
  - intros Hin. cbn [In] in Hin.
    repeat (destruct Hin as [Hin | Hin]; [discriminate Hin|]).
    exact Hin.
Qed.

(** X17.  With every correction switched off (strengths 0, saturation
    100, black level 0, contrast 0, shadows 0) and no palette file, the
    saved image is the resized crop as the library returned it. *)
Theorem neutral_run_is_crop_and_resize :
  forall (m : dither_method) (fs : files) (im : frame),
    fs_image fs = Some im -> fs_palette fs = None ->
    img_height im <> 0%Z ->
    exists cropped,
      crop_to_ratio im
        (fst (fst (detect_orientation (img_width im) (img_height im))))
      = Some cropped /\
      saved_image (fst (main (neutral_args m) fs))
      = Some (Image_resize cropped
                (snd (fst (detect_orientation (img_width im)
                             (img_height im))))).
Proof.
  intros m fs im Him Hpal Hh.
  destruct (main_crop_returns im Hh) as (c & Hc).
  exists c. split; [exact Hc|].
  rewrite (main_on_cropped (neutral_args m) fs im c Him Hc), Hpal.
  cbn [fst saved_image app]. cbv zeta.
  unfold neutral_args.
  cbn [blue_reduction dark_blue_reduction saturation black_level contrast
       shadows].
  rewrite apply_blue_reduction_fast_path.
  unfold apply_adjustments.
  rewrite adjust_shadows_skip by lra.
  rewrite adjust_contrast_skip.
  rewrite adjust_black_level_skip by lia.
  now rewrite adjust_saturation_skip.
Qed.

End Orchestrator.


Lemma palette_present_quantizes_witness :
  (fs_image (mkFiles (Some sample_image) (Some sample_image))
   = Some sample_image /\
   fs_palette (mkFiles (Some sample_image) (Some sample_image))
   = Some sample_image /\
   img_height sample_image <> 0%Z) /\
  ~ In (Print MsgPaletteNotFound)
      (fst (@main Pillow.library default_args
              (mkFiles (Some sample_image) (Some sample_image)))).
Proof.
  assert (Hh : img_height sample_image <> 0%Z) by (intros E; discriminate E).
  split; [split; [reflexivity | split; [reflexivity | exact Hh]]|].
  destruct (@palette_present_quantizes Pillow.library default_args
              (mkFiles (Some sample_image) (Some sample_image))
              sample_image sample_image eq_refl eq_refl Hh)
    as (c & _ & _ & Hno).
  exact Hno.
Defined.

Lemma neutral_run_is_crop_and_resize_witness :
  (fs_image sample_files = Some sample_image /\
   fs_palette sample_files = None /\ img_height sample_image <> 0%Z) /\
  exists cropped,
    @crop_to_ratio Pillow.library sample_image (5, 3) = Some cropped /\
    saved_image (fst (@main Pillow.library (neutral_args NoDither)
                        sample_files))
    = Some (@Image_resize Pillow.library cropped (800, 480)%Z).
Proof.
  assert (Hh : img_height sample_image <> 0%Z) by (intros E; discriminate E).
  split; [split; [reflexivity | split; [reflexivity | exact Hh]]|].
  exact (@neutral_run_is_crop_and_resize Pillow.library NoDither sample_files
           sample_image eq_refl eq_refl Hh).
Defined.

(** ** The curve plotter *)

Lemma linspace_length a b num : length (linspace a b num) = num.
Proof. unfold linspace. now rewrite length_map, length_seq. Qed.

Lemma linspace_nth a b num i :
  (i < num)%nat ->
  nth i (linspace a b num) 0 = a + INR i * ((b - a) / INR (num - 1)).
Proof.
  intros Hi. unfold linspace.
  set (f := fun j : nat => a + INR j * ((b - a) / INR (num - 1))).
  rewrite (nth_indep _ 0 (f 0%nat)) by now rewrite length_map, length_seq.
  rewrite map_nth. now rewrite seq_nth.
Qed.

(** The abscissas of a plotted line: 100 points, [i / 33] at index [i]. *)
Lemma plot_axis_nth i :
  (i < 100)%nat -> nth i (linspace 0 3 100) 0 = INR i / 33.
Proof.
  intros Hi. rewrite linspace_nth by assumption.
  change (100 - 1)%nat with 99%nat.
  rewrite (INR_IZR_INZ 99). change (Z.of_nat 99) with 99%Z. lra.
Qed.

Lemma plot_ordinate_nth k i :
  (i < 100)%nat ->
  nth i (map (fun x => clone_norm x k) (linspace 0 3 100)) 0
  = clone_norm (INR i / 33) k.
Proof.
  intros Hi.
  set (f := fun x : R => clone_norm x k).
  rewrite (nth_indep _ 0 (f 0)) by now rewrite length_map, linspace_length.
  rewrite map_nth. now rewrite plot_axis_nth.
Qed.

Lemma plot_curves_in_line xs ys k strengths :
  In (PlotLine xs ys k) (plot_curves strengths) ->
  0 < k /\ xs = linspace 0 3 100 /\
  ys = map (fun x => clone_norm x k) (linspace 0 3 100).
Proof.
  unfold plot_curves. intros Hin. apply in_app_or in Hin.
  destruct Hin as [Hin | [Hin | []]]; [|discriminate Hin].
  apply in_map_iff in Hin. destruct Hin as (s & Hs & _).
  destruct (Rle_dec s 0); [discriminate Hs|].
  injection Hs as <- <- <-. repeat split; lra.
Qed.

(** X16.  [plot_curves] plots one line per strictly positive strength
    and reports every other strength as skipped, both in the order given,
    and ends by saving the figure.  Every plotted line has 100 points over
    the blue ratios 0 to 3, starts at [1 - strength], passes through 1 at
    blue ratio 2/3 (point 22) and never decreases along the axis. *)
Theorem plot_curves_lines :
  forall strengths : list R,
    plotted_strengths (plot_curves strengths)
    = filter (fun s => Py.gtb s 0) strengths /\
    skipped_strengths (plot_curves strengths)
    = filter (fun s => negb (Py.gtb s 0)) strengths /\
    last (plot_curves strengths) PlotSave = PlotSave /\
    (forall xs ys k,
        In (PlotLine xs ys k) (plot_curves strengths) ->
        0 < k /\
        length xs = 100%nat /\ length ys = 100%nat /\
        nth 0 xs 0 = 0 /\ nth 99 xs 0 = 3 /\
        nth 0 ys 0 = 1 - k /\ nth 22 ys 0 = 1 /\
        (forall i j, (i <= j < 100)%nat -> nth i ys 0 <= nth j ys 0)).
Proof.
  intros strengths. split; [|split; [|split]].
  - unfold plot_curves.
    induction strengths as [|s rest IH]; [reflexivity|].
    cbn [map app filter]. unfold Py.gtb, Py.ltb.
    destruct (Rle_dec s 0); destruct (Rlt_dec 0 s); try lra;
      cbn [plotted_strengths]; unfold Py.gtb, Py.ltb in IH; now rewrite IH.
  - unfold plot_curves.
    induction strengths as [|s rest IH]; [reflexivity|].
    cbn [map app filter]. unfold Py.gtb, Py.ltb.
    destruct (Rle_dec s 0); destruct (Rlt_dec 0 s); try lra;
      cbn [negb skipped_strengths]; unfold Py.gtb, Py.ltb in IH;
      now rewrite IH.
  - unfold plot_curves. apply last_last.
  - intros xs ys k Hin.
    destruct (plot_curves_in_line xs ys k strengths Hin) as (Hk & -> & ->).
    split; [exact Hk|].
    split; [apply linspace_length|].
    split; [now rewrite length_map, linspace_length|].
    split; [rewrite plot_axis_nth by lia; simpl; lra|].
    split.
    { rewrite plot_axis_nth by lia.
      rewrite (INR_IZR_INZ 99). change (Z.of_nat 99) with 99%Z. lra. }
    split.
    { rewrite plot_ordinate_nth by lia.
      replace (INR 0 / 33) with 0 by (simpl; lra).
      change (clone_norm 0 k) with (curve_result (0 * 1.5) k).
      replace (0 * 1.5) with 0 by lra. apply curve_result_at_zero. }
    split.
    { rewrite plot_ordinate_nth by lia.
      rewrite (INR_IZR_INZ 22). change (Z.of_nat 22) with 22%Z.
      change (clone_norm (22 / 33) k) with (curve_result (22 / 33 * 1.5) k).
      replace (22 / 33 * 1.5) with 1 by lra. apply curve_result_at_one. }
    intros i j [Hij Hj].
    rewrite !plot_ordinate_nth by lia.
    change (clone_norm (INR i / 33) k)
      with (curve_result (INR i / 33 * 1.5) k).
    change (clone_norm (INR j / 33) k)
      with (curve_result (INR j / 33 * 1.5) k).
    rewrite !curve_result_normalized.
    assert (Hle : INR i <= INR j) by now apply le_INR.
    pose proof (normalized_increasing (INR i / 33 * 1.5) (INR j / 33 * 1.5)
                  ltac:(lra)).
    nra.
Qed.

Lemma plot_curves_lines_witness :
  In (PlotLine (linspace 0 3 100)
        (map (fun x => clone_norm x 5) (linspace 0 3 100)) 5)
     (plot_curves [5; -1]) /\
  nth 22 (map (fun x => clone_norm x 5) (linspace 0 3 100)) 0 = 1.
Proof.
  assert (Hin : In (PlotLine (linspace 0 3 100)
                      (map (fun x => clone_norm x 5) (linspace 0 3 100)) 5)
                   (plot_curves [5; -1])).
  { unfold plot_curves. cbn [map app]. left.
    destruct (Rle_dec 5 0); [lra | reflexivity]. }
  split; [exact Hin|].
  destruct (proj2 (proj2 (proj2 (plot_curves_lines [5; -1]))) _ _ _ Hin)
    as (_ & _ & _ & _ & _ & _ & H22 & _).
  exact H22.
Defined.

(** ** Both corrections together *)

(** The reduction factor is the product of the dark factor and the curve
    factor, each 1 when its branch is not taken. *)
Lemma reduction_factor_product r g b s d lt :
  reduction_factor_of r g b s d lt
  = (let luminance :=
       0.299 * (IZR r / 255) + 0.587 * (IZR g / 255) + 0.114 * (IZR b / 255)
     in
     if Py.gtb d 0 && Py.ltb luminance lt
     then 1 - d * (1 - luminance / lt) * 0.1 else 1)
    * (if Py.gtb s 0
       then curve_result
              (IZR b / 255
               / (IZR r / 255 + IZR g / 255 + IZR b / 255 + 0.000001) * 1.5) s
       else 1).
Proof.
  unfold reduction_factor_of. cbv zeta.
  replace 255.0 with 255 by lra. replace 1.0 with 1 by lra.
  destruct (Py.gtb d 0 && Py.ltb _ lt); destruct (Py.gtb s 0); ring.
Qed.

(** X18.  With a strength between 0 and 1 and a dark strength between 0
    and 10, a pixel whose blue is at most twice its red plus green never
    gains blue: both factors then lie between 0 and 1. *)
Theorem gentle_settings_never_add_blue :
  forall (r g b : Z) (strength dark_strength luminance_threshold : R),
    pixel_ok (r, g, b) ->
    0 <= strength <= 1 -> 0 <= dark_strength <= 10 ->
    (b <= 2 * (r + g))%Z ->
    (blue_of (reduce_blue_in_pixel r g b strength dark_strength
                luminance_threshold) <= b)%Z.
Proof.
  intros r g b s d lt (Hr & Hg & Hb) [Hs0 Hs1] [Hd0 Hd1] Hcmp.
  unfold sample_ok, red_of, green_of, blue_of in *; cbn [fst snd] in *.
  destruct (Req_dec_T s 0) as [Es | Es];
    [destruct (Req_dec_T d 0) as [Ed | Ed]|].
  { subst s d. rewrite reduce_blue_fast_path. cbn [snd]. lia. }
  all: rewrite reduce_blue_slow_path by tauto; cbn [snd];
    rewrite reduction_factor_product; cbv zeta;
    replace 255.0 with 255 by lra.
  all: assert (HrR : 0 <= IZR r <= 255) by (split; apply IZR_le; lia);
    assert (HgR : 0 <= IZR g <= 255) by (split; apply IZR_le; lia);
    assert (HbR : 0 <= IZR b <= 255) by (split; apply IZR_le; lia).
  all: set (lum := 0.299 * (IZR r / 255) + 0.587 * (IZR g / 255)
                   + 0.114 * (IZR b / 255));
    set (total := IZR r / 255 + IZR g / 255 + IZR b / 255 + 0.000001);
    set (x := IZR b / 255 / total * 1.5).
  all: assert (Hlum : 0 <= lum) by (unfold lum; lra);
    assert (Htot : 0 < total) by (unfold total; lra).
  all: assert (Hx : 0 <= x <= 1);
    [ unfold x;
      assert (Hn : IZR b / 255 * 1.5 <= total)
        by (apply IZR_le in Hcmp; rewrite mult_IZR, plus_IZR in Hcmp;
            unfold total; lra);
      replace (IZR b / 255 / total * 1.5)
        with (IZR b / 255 * 1.5 / total) by (field; lra);
      split;
      [ apply Rmult_le_pos; [lra | left; apply Rinv_0_lt_compat; lra]
      | apply (Rmult_le_reg_r total); [assumption|];
        replace (IZR b / 255 * 1.5 / total * total)
          with (IZR b / 255 * 1.5) by (field; lra);
        lra ]
    | ].
  all: set (A := if Py.gtb d 0 && Py.ltb lum lt
                 then 1 - d * (1 - lum / lt) * 0.1 else 1);
    set (C := if Py.gtb s 0 then curve_result x s else 1).
  all: assert (HA : 0 <= A <= 1);
    [ unfold A; destruct (Py.gtb d 0 && Py.ltb lum lt) eqn:E; [|lra];
      apply andb_prop in E; destruct E as [_ El];
      apply PyFacts.ltb_true in El;
      assert (Hq : 0 <= lum / lt < 1);
      [ split;
        [ apply Rmult_le_pos;
          [assumption | left; apply Rinv_0_lt_compat; lra]
        | apply (Rmult_lt_reg_r lt); [lra|];
          replace (lum / lt * lt) with lum by (field; lra); lra ]
      | nra ]
    | ].
  all: assert (HC : 0 <= C <= 1);
    [ unfold C; destruct (Py.gtb s 0); [|lra];
      pose proof (curve_result_lower x s (proj1 Hx) Hs0);
      pose proof (curve_result_le_one x s (proj2 Hx) Hs0); lra
    | ].
  all: apply clamp_int_le; [lia|];
    assert (HAC : 0 <= A * C <= 1) by nra; nra.
Qed.

Lemma gentle_settings_never_add_blue_witness :
  (pixel_ok (30, 40, 90)%Z /\ 0 <= 0.5 <= 1 /\ 0 <= 4 <= 10 /\
   (90 <= 2 * (30 + 40))%Z) /\
  (blue_of (reduce_blue_in_pixel 30 40 90 0.5 4 0.35) <= 90)%Z.
Proof.
  assert (Hok : pixel_ok (30, 40, 90)%Z).
  { unfold pixel_ok, sample_ok, red_of, green_of, blue_of; cbn [fst snd].
    lia. }
  assert (Hs : 0 <= 0.5 <= 1) by lra.
  assert (Hd : 0 <= 4 <= 10) by lra.
  assert (Hc : (90 <= 2 * (30 + 40))%Z) by lia.
  split; [repeat split; try lra; try lia; apply Hok|].
  exact (gentle_settings_never_add_blue 30 40 90 0.5 4 0.35 Hok Hs Hd Hc).
Defined.
